(** * jetstream_hugo.plots: level inference, palettes, masks and cluster diagrams

    A shallow embedding of the algorithmic parts of
    [src/jetstream_hugo/plots.py] ([doubleit], [create_levels],
    [make_transparent], the mask-driven group preparation of [add_stippling]
    and [add_any_contour_from_mask], and the tiling and patch styling of
    [cluster_on_fig]) together with the properties the specification states
    about them.

    Python values are modelled as the code has them: [int] as [Z], [float] as
    IEEE binary64 ([PrimFloat.float]), [str] as [string], lists and 1-D arrays
    as [list], an exception as the [Raise] branch of [result].  Calls into
    numpy, matplotlib, xarray, scipy and contourpy whose value no property
    depends on are parameters of the development. *)

From Stdlib Require Import ZArith List String Ascii Bool Lia PrimFloat.
From Stdlib Require Uint63.
Import ListNotations.

Set Warnings "-inexact-float".
Local Open Scope string_scope.
Local Open Scope list_scope.
Local Open Scope Z_scope.

(** ** Exceptions and fallible computations *)

(** The Python exceptions the modelled code can raise. [ValueError] carries
    its message. *)
Inductive exn : Type :=
| IndexError
| KeyError
| ValueError (msg : string).

Inductive result (A : Type) : Type :=
| Ok (a : A)
| Raise (e : exn).

Arguments Ok {A} a.
Arguments Raise {A} e.

Definition bind {A B : Type} (m : result A) (k : A -> result B) : result B :=
  match m with
  | Ok a => k a
  | Raise e => Raise e
  end.

Notation "x <- m ;; k" := (bind m (fun x => k))
  (at level 61, m at next level, right associativity).
Notation "' p <- m ;; k" := (bind m (fun x => match x with p => k end))
  (at level 61, p pattern, m at next level, right associativity).

(** ** Python sequence primitives *)

(** [l[i]]: a negative index counts from the end, an index out of range
    raises [IndexError]. *)
Definition py_index {A : Type} (l : list A) (i : Z) : result A :=
  let n := Z.of_nat (List.length l) in
  let j := if i <? 0 then i + n else i in
  if (0 <=? j) && (j <? n) then
    match nth_error l (Z.to_nat j) with
    | Some x => Ok x
    | None => Raise IndexError
    end
  else Raise IndexError.

(** [k * [x]]: a non-positive count gives the empty list. *)
Definition py_repeat {A : Type} (k : Z) (x : A) : list A :=
  repeat x (Z.to_nat k).

(** The bounds a slice [start:stop] selects in a sequence of length [len]
    (step 1): a negative bound counts from the end, and every bound is clamped
    to [0, len]. *)
Definition slice_bound (len i : Z) : Z :=
  if i <? 0 then Z.max 0 (i + len) else Z.min i len.

Definition slice_range (len : Z) (start stop : option Z) : Z * Z :=
  (match start with None => 0 | Some s => slice_bound len s end,
   match stop with None => len | Some s => slice_bound len s end).

(** [np.delete(arr, i)] on a 1-D array with an integer [i]: the element at
    index [i] is left out; an index out of range raises [IndexError]. *)
Fixpoint remove_nth {A : Type} (n : nat) (l : list A) : list A :=
  match l with
  | [] => []
  | x :: l' =>
      match n with
      | O => l'
      | S n' => x :: remove_nth n' l'
      end
  end.

Definition np_delete {A : Type} (arr : list A) (i : Z) : result (list A) :=
  let n := Z.of_nat (List.length arr) in
  let j := if i <? 0 then i + n else i in
  if (0 <=? j) && (j <? n) then Ok (remove_nth (Z.to_nat j) arr)
  else Raise IndexError.

(** ** [doubleit] *)

(** The [thing] argument: a string, a list (of colours or line styles), or
    anything else ([None] in the callers). *)
Inductive thing_arg : Type :=
| ThingStr (s : string)
| ThingList (l : list string)
| ThingOther.

(** [int(length / 2)] is the true quotient truncated toward zero ([Z.quot]);
    the float quotient is exact for every length a list can have.
    [length % 2] is Python's floored remainder ([Z.modulo]). *)
Definition doubleit (thing : thing_arg) (length : Z) (default : string)
  : result (list string) :=
  match thing with
  | ThingStr s => Ok (py_repeat length s)
  | ThingList l =>
      let lover2 := Z.quot length 2 in
      if (List.length l =? 3)%nat then
        t0 <- py_index l 0 ;;
        t1 <- py_index l 1 ;;
        t2 <- py_index l 2 ;;
        Ok (py_repeat lover2 t0 ++ py_repeat (length mod 2) t1
              ++ py_repeat lover2 t2)
      else
        t0 <- py_index l 0 ;;
        t1 <- py_index l 1 ;;
        Ok (py_repeat lover2 t0 ++ py_repeat (length mod 2) default
              ++ py_repeat lover2 t1)
  | ThingOther => Ok (py_repeat length default)
  end.

(** ** Fields, levels and directions *)

(** A field is a 2-D array that is boolean (a mask) or continuous. *)
Inductive Field : Type :=
| BoolField (vals : list (list bool))
| FloatField (vals : list (list float)).

Inductive dtype : Type := dt_bool | dt_float64.

Definition field_dtype (f : Field) : dtype :=
  match f with
  | BoolField _ => dt_bool
  | FloatField _ => dt_float64
  end.

Definition dtype_eqb (a b : dtype) : bool :=
  match a, b with
  | dt_bool, dt_bool => true
  | dt_float64, dt_float64 => true
  | _, _ => false
  end.

(** The [levels] argument: [None], a level count, or an explicit sequence. *)
Inductive levels_arg : Type :=
| LevelsNone
| LevelsInt (n : Z)
| LevelsSeq (l : list float).

(** A direction is an [int] or [None]. *)
Definition direction_t : Type := option Z.

Definition direction_is (d : direction_t) (k : Z) : bool :=
  match d with
  | Some z => z =? k
  | None => false
  end.

(** The dictionary [{-1: "min", 0: "both", 1: "max"}], subscripted. *)
Definition extend_dict (d : direction_t) : result string :=
  match d with
  | Some (-1) => Ok "min"
  | Some 0 => Ok "both"
  | Some 1 => Ok "max"
  | _ => Raise KeyError
  end.

(** What [create_levels] returns: (levelsc, levelscf, extend, direction). *)
Definition levels_result : Type :=
  (list float * list float * string * direction_t)%type.

Definition bool_levels : list float := [0%float; 0.5%float; 1%float].

(** ** Floats, [np.linspace] and colormaps *)

(** The float a Python [int] converts to (exact below 2^53). *)
Definition float_of_Z (z : Z) : float :=
  match z with
  | Z0 => 0%float
  | Zpos _ => PrimFloat.of_uint63 (Uint63.of_Z z)
  | Zneg _ => PrimFloat.opp (PrimFloat.of_uint63 (Uint63.of_Z (- z)))
  end.

(** [np.arange(0, num)] as floats. *)
Definition arange (num : Z) : list float :=
  map (fun i => float_of_Z (Z.of_nat i)) (seq 0 (Z.to_nat num)).

(** [y[-1] = v] on a non-empty array. *)
Definition set_last {A : Type} (v : A) (y : list A) : list A :=
  match y with
  | [] => []
  | _ => removelast y ++ [v]
  end.

(** [np.linspace(start, stop, num)] (endpoint included): the samples are
    [i * step + start] with [step = (stop - start) / (num - 1)], the last one
    is set to [stop], and a negative [num] raises [ValueError]. *)
Definition np_linspace (start stop : float) (num : Z) : result (list float) :=
  if num <? 0 then Raise (ValueError "Number of samples must be non-negative")
  else
    let div := float_of_Z (num - 1) in
    let delta := PrimFloat.sub stop start in
    let y := arange num in
    let y :=
      if 0 <? num - 1 then
        let step := PrimFloat.div delta div in
        if PrimFloat.eqb step 0%float then
          map (fun v => PrimFloat.mul (PrimFloat.div v div) delta) y
        else map (fun v => PrimFloat.mul v step) y
      else map (fun v => PrimFloat.mul v delta) y in
    let y := map (fun v => PrimFloat.add v start) y in
    Ok (if 1 <? num then set_last stop y else y).

(** One row of a colour array: red, green, blue, alpha. *)
Record RGBA : Type := mkRGBA {
  rgba_r : float;
  rgba_g : float;
  rgba_b : float;
  rgba_a : float
}.

Definition with_alpha (c : RGBA) (a : float) : RGBA :=
  mkRGBA (rgba_r c) (rgba_g c) (rgba_b c) a.

(** A matplotlib colormap: its size [N] and the colour it gives a sample
    position; called on an array it maps every entry. *)
Record Colormap : Type := mkColormap {
  cmap_N : Z;
  cmap_rgba : float -> RGBA
}.

(** The [cmap] argument: a registered name or a colormap object. *)
Inductive cmap_arg : Type :=
| CmapName (name : string)
| CmapObj (c : Colormap).

(** [colorlist[start:stop, -1] = v]: the alpha of the rows the slice selects
    is overwritten. *)
Fixpoint set_alpha_from (i lo hi : Z) (v : float) (colorlist : list RGBA)
  : list RGBA :=
  match colorlist with
  | [] => []
  | c :: rest =>
      (if (lo <=? i) && (i <? hi) then with_alpha c v else c)
        :: set_alpha_from (i + 1) lo hi v rest
  end.

Definition assign_alpha (start stop : option Z) (v : float)
  (colorlist : list RGBA) : list RGBA :=
  let '(lo, hi) := slice_range (Z.of_nat (List.length colorlist)) start stop in
  set_alpha_from 0 lo hi v colorlist.

(** [int(np.ceil(nlev / 2))]. *)
Definition ceil_half (nlev : Z) : Z := (nlev + 1) / 2.

(** The positions a transparent band covers, to compare with what
    [make_transparent] zeroes: below [n_transparent] for direction 1, the last
    [n_transparent] of [nlev] otherwise, and for direction 0 the positions
    strictly within [n_transparent] of the midpoint. *)
Definition transparent_band (direction nlev n_transparent i : Z) : bool :=
  if direction =? 0 then
    (ceil_half nlev - n_transparent <? i) && (i <? ceil_half nlev + n_transparent)
  else if direction =? 1 then i <? n_transparent
  else nlev - n_transparent <=? i.

(** ** Data arrays and group masks *)

(** An n-dimensional float array: its shape and its entries in row-major
    order. *)
Record ndarray : Type := mkNd {
  nd_shape : list nat;
  nd_data : list float
}.

(** An xarray [DataArray]: named dimensions over an array. *)
Record DataArray : Type := mkDa {
  da_dims : list string;
  da_values : ndarray
}.

Definition da_shape (da : DataArray) : list nat := nd_shape (da_values da).

Definition shape_size (shape : list nat) : nat := fold_right Nat.mul 1%nat shape.

(** [np.zeros(shape)]. *)
Definition np_zeros (shape : list nat) : ndarray :=
  mkNd shape (repeat 0%float (shape_size shape)).

(** [da[:1]]: at most the first entry along the leading axis; a 0-d array
    cannot be sliced. *)
Definition da_head (da : DataArray) : result DataArray :=
  match da_shape da with
  | [] => Raise IndexError
  | n :: rest =>
      let k := Nat.min 1 n in
      Ok (mkDa (da_dims da)
            (mkNd (k :: rest)
               (firstn (k * shape_size rest) (nd_data (da_values da)))))
  end.

(** [da[0]]: the first entry along the leading axis, which must exist. *)
Definition da_first (da : DataArray) : result DataArray :=
  match da_shape da with
  | [] => Raise IndexError
  | O :: _ => Raise IndexError
  | S _ :: rest =>
      Ok (mkDa (tl (da_dims da))
            (mkNd rest (firstn (shape_size rest) (nd_data (da_values da)))))
  end.

(** [x.copy(data=d)]: the new data must have the shape of [x]. *)
Definition da_copy_data (x : DataArray) (d : ndarray) : result DataArray :=
  if list_eq_dec Nat.eq_dec (da_shape x) (nd_shape d) then
    Ok (mkDa (da_dims x) d)
  else Raise (ValueError "Data shape must match shape of object").

(** A mask is read through [mask.T]: one membership vector over time per
    group. *)
Definition Mask : Type := list (list bool).

(** [np.sum(mas)] of a boolean vector. *)
Definition np_sum (mas : list bool) : Z :=
  Z.of_nat (count_occ bool_dec mas true).

(** A loop that appends [f x] for every [x], left to right, and stops at the
    first exception. *)
Fixpoint for_each {A B : Type} (f : A -> result B) (l : list A)
  : result (list B) :=
  match l with
  | [] => Ok []
  | x :: rest =>
      y <- f x ;;
      ys <- for_each f rest ;;
      Ok (y :: ys)
  end.

(** A computation on the figure being built: the figure it leaves and the
    value returned or exception raised. *)
Definition Draw (Fig A : Type) : Type := Fig -> Fig * result A.

(** The [stippling] argument: a flag or a colour name. *)
Inductive stippling_arg : Type :=
| StipplingBool (b : bool)
| StipplingStr (s : string).

Definition stippling_truthy (s : stippling_arg) : bool :=
  match s with
  | StipplingBool b => b
  | StipplingStr str => negb (String.eqb str "")
  end.

(** The double quote character. *)
Definition dquote : string := String "034"%char EmptyString.

Definition quoted (s : string) : string := (dquote ++ s ++ dquote)%string.

Definition allowed_types : list string := ["contourf"; "contour"; "both"].

(** ** Clouds, palettes and patches *)

Definition point : Type := (float * float)%type.

(** A colour argument: a named colour or a colour row. *)
Inductive color : Type :=
| ColorName (name : string)
| ColorRGBA (c : RGBA).

(** The [cmap] argument of [cluster_on_fig]. *)
Inductive cluster_cmap : Type :=
| ClusterCmapNone
| ClusterCmapName (name : string)
| ClusterCmapObj (c : Colormap)
| ClusterCmapList (colors : list color).

(** The extent of one panel in figure coordinates ([ax.get_position()]). *)
Record Bbox : Type := mkBbox {
  bb_xmin : float;
  bb_ymin : float;
  bb_xmax : float;
  bb_ymax : float
}.

(** What [cluster_on_fig] reads of the [Clusterplot]. *)
Record Clusterplot : Type := mkClusterplot {
  cp_nrow : Z;
  cp_axes : list Bbox
}.

(** The keyword arguments of one [PathPatch]. *)
Record PathPatch : Type := mkPathPatch {
  pp_path : list point;
  pp_fc : color;
  pp_alpha : float;
  pp_ec : color;
  pp_lw : Z;
  pp_ls : string
}.

(** [np.unique]: the distinct labels in increasing order. *)
Fixpoint insert_unique (z : Z) (l : list Z) : list Z :=
  match l with
  | [] => [z]
  | x :: rest =>
      if z <? x then z :: l
      else if z =? x then l
      else x :: insert_unique z rest
  end.

Definition np_unique (l : list Z) : list Z :=
  fold_right insert_unique [] l.

Definition count_if (p : Z -> bool) (l : list Z) : Z :=
  Z.of_nat (List.length (filter p l)).

(** [itertools.product([-1, 0, 1], [-1, 0, 1])]. *)
Definition sign_pairs : list (Z * Z) := list_prod [-1; 0; 1] [-1; 0; 1].

(** The points appended for one panel point: [newcs]. *)
Definition newcs (dx dy : float) (coord : point) : list point :=
  map (fun '(sgnx, sgny) =>
         (PrimFloat.add (fst coord)
            (PrimFloat.div (PrimFloat.mul (float_of_Z sgnx) dx) 2.01%float),
          PrimFloat.add (snd coord)
            (PrimFloat.div (PrimFloat.mul (float_of_Z sgny) dy) 2.01%float)))
    sign_pairs.

(** One pass of the tiling loop, which rebinds [coords] and [clu_labs]. *)
Definition tile_step (dx dy : float) (acc : list point * list Z)
  (item : point * Z) : list point * list Z :=
  let '(coords, clu_labs) := acc in
  let '(coord, val) := item in
  let new := newcs dx dy coord in
  (coords ++ new, clu_labs ++ py_repeat (Z.of_nat (List.length new)) val).

(** Lines 782 and 783: the spacings [dx] and [dy] read off the panels. *)
Definition panel_spacing (nrow : Z) (coords : list point)
  : result (float * float) :=
  cn <- py_index coords nrow ;;
  c0 <- py_index coords 0 ;;
  let dx := PrimFloat.sub (fst cn) (fst c0) in
  c2 <- py_index coords 2 ;;
  c0 <- py_index coords 0 ;;
  let dy := PrimFloat.div (PrimFloat.sub (snd c2) (snd c0)) 2%float in
  Ok (dx, dy).

(** Lines 782 to 790: the tiled cloud with its labels. The loop runs over the
    pairs of the arrays it was given. *)
Definition tile_cloud (nrow : Z) (coords : list point) (clu_labs : list Z)
  : result (list point * list Z) :=
  '(dx, dy) <- panel_spacing nrow coords ;;
  Ok (fold_left (tile_step dx dy) (combine coords clu_labs) (coords, clu_labs)).

(** [np.minimum] and [np.maximum], which propagate NaN. *)
Definition np_minimum (a b : float) : float :=
  if PrimFloat.is_nan a then a
  else if PrimFloat.is_nan b then b
  else if PrimFloat.ltb b a then b else a.

Definition np_maximum (a b : float) : float :=
  if PrimFloat.is_nan a then a
  else if PrimFloat.is_nan b then b
  else if PrimFloat.ltb a b then b else a.

(** [np.amin(coords, axis=0)] and [np.amax(coords, axis=0)]. *)
Definition amin_axis0 (coords : list point) : result point :=
  match coords with
  | [] => Raise (ValueError "zero-size array to reduction operation")
  | c :: rest =>
      Ok (fold_left (fun m p => (np_minimum (fst m) (fst p),
                                 np_minimum (snd m) (snd p))) rest c)
  end.

Definition amax_axis0 (coords : list point) : result point :=
  match coords with
  | [] => Raise (ValueError "zero-size array to reduction operation")
  | c :: rest =>
      Ok (fold_left (fun m p => (np_maximum (fst m) (fst p),
                                 np_maximum (snd m) (snd p))) rest c)
  end.

(** Lines 791 to 794: the cloud rescaled into the box of the panels. *)
Definition reduce_coords (newmin newmax : point) (coords : list point)
  : result (list point) :=
  lo <- amin_axis0 coords ;;
  hi <- amax_axis0 coords ;;
  let scale (v vlo vhi nlo nhi : float) : float :=
    PrimFloat.add
      (PrimFloat.mul (PrimFloat.div (PrimFloat.sub v vlo) (PrimFloat.sub vhi vlo))
         (PrimFloat.sub nhi nlo))
      nlo in
  Ok (map (fun p =>
             (scale (fst p) (fst lo) (fst hi) (fst newmin) (fst newmax),
              scale (snd p) (snd lo) (snd hi) (snd newmin) (snd newmax)))
        coords).

(** ** Grid layouts, panel order and boundary paths *)

(** Exceptions of the functions below that [exn] does not list. *)
Inductive exn_more : Type :=
| Builtin (e : exn)
| AttributeError
| ZeroDivisionError.

Inductive outcome (A : Type) : Type :=
| Returns (a : A)
| Raises (e : exn_more).

Arguments Returns {A} a.
Arguments Raises {A} e.

Definition lift {A : Type} (r : result A) : outcome A :=
  match r with
  | Ok a => Returns a
  | Raise e => Raises (Builtin e)
  end.

(** [range(n)]: empty for a non-positive [n]. *)
Definition py_range (n : Z) : list Z := map Z.of_nat (seq 0 (Z.to_nat n)).

(** [divmod(a, b)] on integers: floored quotient and remainder. *)
Definition py_divmod (a b : Z) : outcome (Z * Z) :=
  if b =? 0 then Raises ZeroDivisionError else Returns (a / b, a mod b).

Definition to_prettier_order (n width height : Z) : outcome Z :=
  match py_divmod n height with
  | Raises e => Raises e
  | Returns (col, row) =>
      let row := height - 1 - row in
      Returns (1 + width * row + col)
  end.

(** The grid columns [slice_x] that [honeycomb_panel] gives the panel of
    column [i] in row [j]. *)
Definition honeycomb_slice (i j : Z) : Z * Z :=
  if j mod 2 =? 0 then (2 * i, 2 * i + 2) else (2 * i + 1, 2 * i + 2 + 1).

(** The loop of [honeycomb_panel]: for every [(i, j)] of
    [product(range(ncol), range(nrow))], the entry [axes[j, i]] and the
    columns its subplot takes in row [j] of the [nrow] by [2 * ncol + 1]
    grid. *)
Definition honeycomb_cells (nrow ncol : Z) : list (Z * Z * (Z * Z)) :=
  map (fun '(i, j) => (j, i, honeycomb_slice i j))
    (list_prod (py_range ncol) (py_range nrow)).

(** [np.full(n, v)]. *)
Definition np_full {A : Type} (n : Z) (v : A) : list A := repeat v (Z.to_nat n).

(** The vertices [make_boundary_path] hands to [mpath.Path]: four edges of
    [n] points each, as (longitude, latitude) pairs. *)
Definition make_boundary_path (minlon maxlon minlat maxlat : float) (n : Z)
  : result (list point) :=
  xs <- np_linspace minlon maxlon n ;;
  let north := combine xs (np_full n maxlat) in
  ys <- np_linspace maxlat minlat n ;;
  let west := combine (np_full n maxlon) ys in
  xs <- np_linspace maxlon minlon n ;;
  let south := combine xs (np_full n minlat) in
  ys <- np_linspace minlat maxlat n ;;
  let east := combine (np_full n minlon) ys in
  Ok (north ++ west ++ south ++ east).

(** An item of [to_plot] as [add_contour] reads it: the field, and the [lon]
    and [lat] coordinates when the item is a data array that has them. *)
Record PlotItem : Type := mkItem {
  item_field : Field;
  item_lon : option (list float);
  item_lat : option (list float)
}.

Definition setup_lon_lat (to_plot : list PlotItem)
  (lon lat : option (list float)) : outcome (list float * list float) :=
  match lon, lat with
  | Some lon, Some lat => Returns (lon, lat)
  | _, _ =>
      match py_index to_plot 0 with
      | Raise e => Raises (Builtin e)
      | Ok first =>
          match item_lon first with
          | None => Raises AttributeError
          | Some lon =>
              match item_lat first with
              | None => Raises AttributeError
              | Some lat => Returns (lon, lat)
              end
          end
      end
  end.

(** The colour channels of a row without its alpha. *)
Definition rgb_of (c : RGBA) : float * float * float :=
  (rgba_r c, rgba_g c, rgba_b c).

From Stdlib Require Sorted SpecFloat FloatOps FloatAxioms.

(** ** Reference collaborators and inputs

    Concrete stand-ins for the parameters below, to run the model on
    concrete inputs. *)

(** Direction, quantile and tick oracles that answer with a constant. *)
Definition const_direction (d : direction_t) : list Field -> direction_t :=
  fun _ => d.

Definition const_quantile (lo hi : float)
  : list Field -> float -> float -> result (float * float) :=
  fun _ _ _ => Ok (lo, hi).

Definition const_ticks (ticks : list float)
  : Z -> bool -> float -> float -> result (list float) :=
  fun _ _ _ _ => Ok ticks.

(** A grey ramp and two registries. *)
Definition grey_cmap : Colormap :=
  mkColormap 256 (fun x => mkRGBA x x x 1%float).

Definition no_registry : string -> option Colormap := fun _ => None.

(** A series with no time step over a 2 x 2 grid, and one with two time steps
    over a 1 x 2 grid. *)
Definition empty_series : DataArray :=
  mkDa ["time"; "lat"; "lon"] (mkNd [0; 2; 2]%nat []).

Definition two_steps : DataArray :=
  mkDa ["time"; "lat"; "lon"] (mkNd [2; 1; 2]%nat [1; 2; 3; 4]%float).

(** Selection that keeps the array, and drawing methods that log their call
    on a figure that is the list of calls. *)
Definition keep_isel : DataArray -> string -> list bool -> result DataArray :=
  fun da _ _ => Ok da.

Definition keep_mean : DataArray -> string -> result DataArray :=
  fun da _ => Ok da.

Definition log_contourf
  : list DataArray -> bool -> unit -> Draw (list string) unit :=
  fun _ _ _ fig => (fig ++ ["add_contourf"], Ok tt).

Definition log_contour : list DataArray -> unit -> Draw (list string) unit :=
  fun _ _ fig => (fig ++ ["add_contour"], Ok tt).

Definition log_stippling
  : list DataArray -> DataArray -> bool -> string -> string
    -> Draw (list string) unit :=
  fun _ _ _ _ _ fig => (fig ++ ["add_stippling"], Ok tt).

Definition simple_repr (s : string) : string := ("'" ++ s ++ "'")%string.

(** Contouring that finds one unit square per call. *)
Definition unit_square : list point :=
  [(0, 0); (1, 0); (1, 1); (0, 1)]%float.

Definition one_square
  : list point -> list bool -> list float -> list float -> list (list point) :=
  fun _ _ _ _ => [unit_square].

Definition grey_registry : string -> option Colormap := fun _ => Some grey_cmap.

(** Fields, panel layouts and a patch to evaluate the functions on. *)
Definition masks_field : Field := BoolField [[true; false]; [false; false]].

Definition anomaly_field : Field := FloatField [[-1; 1]; [0.5; -0.5]]%float.

Definition four_panels : list point := [(0, 0); (0, 2); (0, 4); (1, 0)]%float.

Definition six_panels : list point :=
  [(0, 0); (0, 1); (0, 2); (1, 0); (1, 1); (1, 2)]%float.

Definition two_axes : Clusterplot :=
  mkClusterplot 3 [mkBbox 0 0 0.5 0.5; mkBbox 0.5 0.5 1 1]%float.

Definition background_patch : PathPatch :=
  mkPathPatch unit_square (ColorName "black") 0.2%float (ColorName "none") 6
    "none".

(** An item with its coordinates, and one without. *)
Definition geo_item : PlotItem :=
  mkItem anomaly_field (Some [0; 1]%float) (Some [10; 20]%float).

Definition bare_item : PlotItem := mkItem anomaly_field None None.

Definition five_levels : list float := [-2; -1; 0; 1; 2]%float.

(** * The module's functions

    The collaborators the module calls are parameters: a property proved
    below holds whatever they compute. *)

Section Plots.

(** [jetstream_hugo.definitions.infer_direction], imported by the module. *)
Variable infer_direction : list Field -> direction_t.
(** [np.nanquantile(to_plot, q=[lo, hi])], unpacked into two bounds. *)
Variable nanquantile : list Field -> float -> float -> result (float * float).
(** [MaxNLocator(nbins, symmetric=s).tick_values(vmin, vmax)]. *)
Variable MaxNLocator_tick_values :
  Z -> bool -> float -> float -> result (list float).
(** The registry [mpl.colormaps], subscripted by name. *)
Variable mpl_colormaps : string -> option Colormap.
(** [da.isel({dim: mas})] and [da.mean(dim=dim)] of xarray. *)
Variable isel : DataArray -> string -> list bool -> result DataArray.
Variable mean_dim : DataArray -> string -> result DataArray.
(** The figure with its axes, and the drawing methods of the class that work
    on it: [add_contourf(to_plot, contours=c, **kwargs)],
    [add_contour(to_plot, **kwargs)], and the significance test and hatching
    of [add_stippling] once its groups are selected. *)
Variables Fig Kwargs Im : Type.
Variable add_contourf : list DataArray -> bool -> Kwargs -> Draw Fig Im.
Variable add_contour : list DataArray -> Kwargs -> Draw Fig unit.
Variable draw_stippling :
  list DataArray -> DataArray -> bool -> string -> string -> Draw Fig unit.
(** The builtin [repr] on strings. *)
Variable py_repr : string -> string.
(** The interpolation of the membership of a label over the cloud
    ([LinearNDInterpolator] on the grid of [x] and [y]) followed by the
    contour extraction: [.filled(0.99, 1)[0]] and [.lines(0.99)]. *)
Variable contour_filled :
  list point -> list bool -> list float -> list float -> list (list point).
Variable contour_lines :
  list point -> list bool -> list float -> list float -> list (list point).

(** ** [create_levels] *)

(** The fill levels: the middle boundary is deleted for direction 0. *)
Definition fill_levels (direction : direction_t) (levelsc : list float)
  : result (list float) :=
  if direction_is direction 0 then
    np_delete levelsc (Z.of_nat (List.length levelsc) / 2)
  else Ok levelsc.

(** The body of [create_levels] below the boolean test. *)
Definition create_levels_inferred
  (to_plot : list Field) (levels : levels_arg) (q : float)
  : result levels_result :=
  let direction := infer_direction to_plot in
  extend <- (if PrimFloat.ltb q 1%float then extend_dict direction
             else Ok "neither") ;;
  match levels with
  | LevelsSeq l =>
      let levelsc := l in
      levelscf <- fill_levels direction levelsc ;;
      Ok (levelsc, levelscf, extend, direction)
  | _ =>
      let nlevels :=
        match levels with
        | LevelsInt n => n
        | _ => match direction with None => 7 | Some _ => 4 end
        end in
      '(lowbound, highbound) <-
        nanquantile to_plot (PrimFloat.sub 1%float q) q ;;
      let lowbound := if direction_is direction 1 then 0%float else lowbound in
      let highbound :=
        if direction_is direction (-1) then 0%float else highbound in
      levelsc <- MaxNLocator_tick_values nlevels (direction_is direction 0)
                   lowbound highbound ;;
      levelscf <- fill_levels direction levelsc ;;
      Ok (levelsc, levelscf, extend, direction)
  end.

Definition create_levels
  (to_plot : list Field) (levels : levels_arg) (q : float)
  : result levels_result :=
  f0 <- py_index to_plot 0 ;;
  if dtype_eqb (field_dtype f0) dt_bool then
    Ok (bool_levels, bool_levels, "neither", Some 1)
  else create_levels_inferred to_plot levels q.

(** ** [make_transparent] *)

Definition resolve_cmap (cmap : cmap_arg) : result Colormap :=
  match cmap with
  | CmapName name =>
      match mpl_colormaps name with
      | Some c => Ok c
      | None => Raise KeyError
      end
  | CmapObj c => Ok c
  end.

(** The result is the colour list handed to [ListedColormap]. *)
Definition make_transparent (cmap : cmap_arg) (nlev : option Z)
  (alpha_others : float) (n_transparent : Z) (direction : Z)
  : result (list RGBA) :=
  cmap <- resolve_cmap cmap ;;
  let nlev := match nlev with None => cmap_N cmap | Some n => n end in
  pts <- np_linspace 0%float 1%float
           (nlev + (if direction =? 0 then 1 else 0)) ;;
  let colorlist := map (cmap_rgba cmap) pts in
  if direction =? 0 then
    let midpoint := ceil_half nlev in
    let colorlist :=
      assign_alpha (Some (midpoint - n_transparent + 1))
        (Some (midpoint + n_transparent)) 0%float colorlist in
    let colorlist :=
      assign_alpha (Some (midpoint + n_transparent)) None alpha_others
        colorlist in
    let colorlist :=
      assign_alpha None (Some (midpoint - n_transparent + 1)) alpha_others
        colorlist in
    Ok colorlist
  else if direction =? 1 then
    let colorlist := assign_alpha None (Some n_transparent) 0%float colorlist in
    let colorlist :=
      assign_alpha (Some n_transparent) None alpha_others colorlist in
    Ok colorlist
  else
    let colorlist :=
      assign_alpha (Some (- n_transparent)) None 0%float colorlist in
    let colorlist :=
      assign_alpha None (Some (- n_transparent)) alpha_others colorlist in
    Ok colorlist.

(** ** [add_stippling] and [add_any_contour_from_mask] *)

(** One pass of the first loop of [add_stippling]. *)
Definition stippling_group (da : DataArray) (mas : list bool)
  : result DataArray :=
  if np_sum mas <? 1 then
    head <- da_head da ;;
    da_copy_data head (np_zeros (1%nat :: tl (da_shape da)))
  else isel da "time" mas.

Definition stippling_to_test (da : DataArray) (mask : Mask)
  : result (list DataArray) :=
  for_each (stippling_group da) mask.

Definition add_stippling (da : DataArray) (mask : Mask) (FDR : bool)
  (color hatch : string) : Draw Fig unit :=
  fun fig =>
    match stippling_to_test da mask with
    | Raise e => (fig, Raise e)
    | Ok to_test => draw_stippling to_test da FDR color hatch fig
    end.

(** ["time" if "time" in da.dims else da.dims[0]]. *)
Definition time_name_of (da : DataArray) : result string :=
  if existsb (String.eqb "time") (da_dims da) then Ok "time"
  else py_index (da_dims da) 0.

(** One pass of the loop of [add_any_contour_from_mask]. *)
Definition contour_group (da : DataArray) (time_name : string)
  (mas : list bool) : result DataArray :=
  if np_sum mas <? 1 then
    first <- da_first da ;;
    da_copy_data first (np_zeros (tl (da_shape da)))
  else
    sel <- isel da time_name mas ;;
    mean_dim sel time_name.

Definition contour_to_plot (da : DataArray) (mask : Mask)
  : result (list DataArray) :=
  time_name <- time_name_of da ;;
  for_each (contour_group da time_name) mask.

(** The message of the [ValueError] for an unknown [type]. *)
Definition wrong_type_message (type : string) : string :=
  ("Wrong type=" ++ py_repr type ++ ", choose among " ++ quoted "contourf"
     ++ ", " ++ quoted "contour" ++ " or " ++ quoted "both")%string.

Definition add_any_contour_from_mask (da : DataArray) (mask : Mask)
  (type : string) (stippling : stippling_arg) (kwargs : Kwargs)
  : Draw Fig (option Im) :=
  fun fig =>
    match contour_to_plot da mask with
    | Raise e => (fig, Raise e)
    | Ok to_plot =>
        let '(fig, im) :=
          if String.eqb type "contourf" then
            let '(fig, r) := add_contourf to_plot false kwargs fig in
            (fig, im <- r ;; Ok (Some im))
          else if String.eqb type "contour" then
            let '(fig, r) := add_contour to_plot kwargs fig in
            (fig, _ <- r ;; Ok None)
          else if String.eqb type "both" then
            let '(fig, r) := add_contourf to_plot true kwargs fig in
            (fig, im <- r ;; Ok (Some im))
          else (fig, Raise (ValueError (wrong_type_message type))) in
        match im with
        | Raise e => (fig, Raise e)
        | Ok im =>
            if stippling_truthy stippling then
              let color :=
                match stippling with
                | StipplingStr s => s
                | StipplingBool _ => "black"
                end in
              let '(fig, r) := add_stippling da mask true color ".." fig in
              (fig, _ <- r ;; Ok im)
            else (fig, Ok im)
        end
    end.

(** ** [cluster_on_fig] *)

(** Lines 745 to 772: the colour of each unique label. *)
Definition cluster_colors (unique_labs : list Z) (cmap : cluster_cmap)
  : result (list color) :=
  let sym := existsb (fun l => l <? 0) unique_labs in
  let nabove := count_if (fun l => 0 <? l) unique_labs in
  let has0 := existsb (fun l => l =? 0) unique_labs in
  let sample (cm : Colormap) : result (list color) :=
    if sym then
      let nbelow := count_if (fun l => l <? 0) unique_labs in
      cab <- np_linspace 1%float 0.66%float nabove ;;
      cbe <- np_linspace 0.33%float 0%float nbelow ;;
      let zerocol := if has0 then [0.5%float] else [] in
      Ok (map (fun v => ColorRGBA (cmap_rgba cm v)) (cbe ++ zerocol ++ cab))
    else
      let zerocol := if has0 then [0.0%float] else [] in
      colors <- np_linspace 1.0%float 0.33%float nabove ;;
      Ok (map (fun v => ColorRGBA (cmap_rgba cm v)) (zerocol ++ colors)) in
  let by_name (name : string) : result (list color) :=
    match mpl_colormaps name with
    | Some cm => sample cm
    | None => Raise KeyError
    end in
  match cmap with
  | ClusterCmapNone => by_name (if sym then "PiYG" else "Greens")
  | ClusterCmapName name => by_name name
  | ClusterCmapObj cm => sample cm
  | ClusterCmapList colors => Ok colors
  end.

(** The body of the loop over the labels: the patches of label [lab], the
    [i]-th unique label. *)
Definition label_patches (colors : list color) (reduced_coords : list point)
  (clu_labs : list Z) (x y : list float) (i : nat) (lab : Z)
  : result (list PathPatch) :=
  let member := map (fun l => l =? lab) clu_labs in
  if lab =? 0 then
    let iter := contour_filled reduced_coords member x y in
    Ok (map (fun p => mkPathPatch p (ColorName "black") 0.2%float
                        (ColorName "none") 6 "none") iter)
  else
    let iter := contour_lines reduced_coords member x y in
    let ls := if 0 <=? lab then "solid" else "dashed" in
    ec <- py_index colors (Z.of_nat i) ;;
    Ok (map (fun p => mkPathPatch p (ColorName "none") 1%float ec 6 ls) iter).

(** The loop [for i, lab in enumerate(unique_labs)]: the patches added to the
    figure so far, and how the loop ended. *)
Fixpoint label_loop (colors : list color) (reduced_coords : list point)
  (clu_labs : list Z) (x y : list float) (i : nat) (labs : list Z)
  : list PathPatch * result unit :=
  match labs with
  | [] => ([], Ok tt)
  | lab :: rest =>
      match label_patches colors reduced_coords clu_labs x y i lab with
      | Raise e => ([], Raise e)
      | Ok ps =>
          let '(more, r) :=
            label_loop colors reduced_coords clu_labs x y (S i) rest in
          (ps ++ more, r)
      end
  end.

(** Everything before the loop over the labels. *)
Definition cluster_setup (self : Clusterplot) (coords : list point)
  (clu_labs : list Z) (cmap : cluster_cmap)
  : result (list color * list point * list Z * list float * list float) :=
  let unique_labs := np_unique clu_labs in
  colors <- cluster_colors unique_labs cmap ;;
  first <- py_index (cp_axes self) 0 ;;
  last <- py_index (cp_axes self) (-1) ;;
  let '(xmin, ymin) := (bb_xmin first, bb_ymin first) in
  let '(xmax, ymax) := (bb_xmax last, bb_ymax last) in
  x <- np_linspace xmin xmax 200 ;;
  y <- np_linspace ymin ymax 200 ;;
  '(tiled, tiled_labs) <- tile_cloud (cp_nrow self) coords clu_labs ;;
  reduced_coords <- reduce_coords (xmin, ymin) (xmax, ymax) tiled ;;
  Ok (colors, reduced_coords, tiled_labs, x, y).

(** The patches [cluster_on_fig] adds to the figure, in order, and how the
    call ended. *)
Definition cluster_on_fig (self : Clusterplot) (coords : list point)
  (clu_labs : list Z) (cmap : cluster_cmap) : list PathPatch * result unit :=
  match cluster_setup self coords clu_labs cmap with
  | Raise e => ([], Raise e)
  | Ok (colors, reduced_coords, tiled_labs, x, y) =>
      label_loop colors reduced_coords tiled_labs x y 0 (np_unique clu_labs)
  end.

(** ** [add_contour], [setup_contourf] and [p_to_tex] *)

(** [None] among the values of a [colors] or [linestyles] argument. *)
Definition is_none (t : thing_arg) : bool :=
  match t with
  | ThingOther => true
  | _ => false
  end.

(** Lines 499 to 511 of [add_contour]: the [colors] and [linestyles] every
    [ax.contour] call receives. [cmap_given] says that the keyword arguments
    carry a [cmap] that is not [None]. *)
Definition contour_styles (levelsc : list float) (direction : direction_t)
  (colors linestyles : thing_arg) (cmap_given : bool)
  : result (thing_arg * thing_arg) :=
  let linestyles :=
    if direction_is direction 0 && is_none linestyles
    then ThingList ["dashed"; "solid"] else linestyles in
  '(colors, linestyles) <-
    (if direction_is direction 0 then
       c <- doubleit colors (Z.of_nat (List.length levelsc)) "black" ;;
       l <- doubleit linestyles (Z.of_nat (List.length levelsc)) "solid" ;;
       Ok (ThingList c, ThingList l)
     else Ok (colors, linestyles)) ;;
  let colors :=
    if negb (direction_is direction 0) && is_none colors
    then ThingStr "black" else colors in
  let linestyles :=
    if negb (direction_is direction 0) && is_none linestyles
    then ThingStr "solid" else linestyles in
  let colors := if cmap_given then ThingOther else colors in
  Ok (colors, linestyles).

(** [add_contour] up to its drawing loop: the coordinates, the levels and the
    styles of the [ax.contour] calls. *)
Definition add_contour_setup (to_plot : list PlotItem)
  (lon lat : option (list float)) (levels : levels_arg)
  (colors linestyles : thing_arg) (q : float) (cmap_given : bool)
  : outcome (list float * list float * list float * thing_arg * thing_arg) :=
  match setup_lon_lat to_plot lon lat with
  | Raises e => Raises e
  | Returns (lon, lat) =>
      lift ('(levelsc, levelscf, _, direction) <-
              create_levels (map item_field to_plot) levels q ;;
            '(colors, linestyles) <-
              contour_styles levelsc direction colors linestyles cmap_given ;;
            Ok (lon, lat, levelscf, colors, linestyles))
  end.

(** The [transparify] argument: a flag, a count, an opacity, or any other
    value with its truth value. *)
Inductive transparify_arg : Type :=
| TranspBool (b : bool)
| TranspInt (n : Z)
| TranspFloat (a : float)
| TranspOther (truthy : bool).

(** The colormap [setup_contourf] ends with: the one it was given, or the
    colour list of [make_transparent]. *)
Inductive palette : Type :=
| PaletteCmap (c : Colormap)
| PaletteListed (colors : list RGBA).

(** The direction as [make_transparent] compares it, with 0 and with 1 only:
    [None] is neither, as -1. *)
Definition direction_code (d : direction_t) : Z :=
  match d with
  | Some z => z
  | None => -1
  end.

(** Lines 553 to 567 of [setup_contourf]: the fill levels, the extend policy
    and the colormap. A [bool] is an [int] to [isinstance], so [True] is
    passed on as [n_transparent]. *)
Definition setup_contourf_palette (to_plot : list Field) (levels : levels_arg)
  (cmap : cmap_arg) (transparify : transparify_arg) (q : float)
  : result (list float * string * palette) :=
  '(levelsc, levelscf, extend, direction) <- create_levels to_plot levels q ;;
  cm <- resolve_cmap cmap ;;
  let nlev := Some (Z.of_nat (List.length levelscf)) in
  let d := direction_code direction in
  let listed (alpha_others : float) (n_transparent : Z) : result palette :=
    l <- make_transparent (CmapObj cm) nlev alpha_others n_transparent d ;;
    Ok (PaletteListed l) in
  pal <-
    match transparify with
    | TranspBool b => if b then listed 1%float 1 else Ok (PaletteCmap cm)
    | TranspInt n => if n =? 0 then Ok (PaletteCmap cm) else listed 1%float n
    | TranspFloat a =>
        if PrimFloat.eqb a 0%float then Ok (PaletteCmap cm) else listed a 1
    | TranspOther truthy =>
        if truthy then listed 1%float 1 else Ok (PaletteCmap cm)
    end ;;
  Ok (levelscf, extend, pal).

(** [num2tex] with its default arguments; the digits come from Python's
    float formatting. *)
Variable num2tex : float -> string.

(** [np.sign(c0)] is truthy unless [c0] is a zero. *)
Definition p_to_tex (c1 c0 : float) (no_intercept : bool) : string :=
  let coef1 := num2tex c1 in
  if no_intercept then ("$y\sim " ++ coef1 ++ "\cdot x$")%string
  else
    let coef0 := num2tex c0 in
    let sign := if PrimFloat.eqb c0 0%float then "-" else "+" in
    ("$y=" ++ coef1 ++ "\cdot x " ++ sign ++ " " ++ coef0 ++ "$")%string.

(** * Properties *)

(** ** Sequence primitives *)

Lemma py_index_head {A : Type} (x : A) (l : list A) :
  py_index (x :: l) 0 = Ok x.
Proof.
  unfold py_index.
  replace (0 <? 0) with false by reflexivity.
  assert (H : (0 <? Z.of_nat (List.length (x :: l))) = true).
  { apply Z.ltb_lt. simpl List.length. lia. }
  rewrite H. reflexivity.
Qed.

Lemma py_index_nil {A : Type} (i : Z) : py_index (@nil A) i = Raise IndexError.
Proof.
  unfold py_index. simpl List.length.
  destruct (i <? 0) eqn:Hi.
  - assert (H : (0 <=? i + Z.of_nat 0) = false) by (apply Z.leb_gt; apply Z.ltb_lt in Hi; lia).
    rewrite H. reflexivity.
  - assert (H : (i <? Z.of_nat 0) = false) by (apply Z.ltb_ge; apply Z.ltb_ge in Hi; lia).
    rewrite H, andb_false_r. reflexivity.
Qed.

Lemma py_index_nat {A : Type} (l : list A) (k : nat) (x : A) :
  nth_error l k = Some x -> py_index l (Z.of_nat k) = Ok x.
Proof.
  intros H. unfold py_index.
  assert (Hk : (k < List.length l)%nat) by (apply nth_error_Some; congruence).
  assert (H0 : (Z.of_nat k <? 0) = false) by (apply Z.ltb_ge; lia).
  rewrite H0.
  assert (H1 : (0 <=? Z.of_nat k) && (Z.of_nat k <? Z.of_nat (List.length l)) = true).
  { apply andb_true_intro. split; [apply Z.leb_le | apply Z.ltb_lt]; lia. }
  rewrite H1, Nat2Z.id, H. reflexivity.
Qed.

Lemma remove_nth_length {A : Type} (l : list A) (n : nat) :
  (n < List.length l)%nat -> S (List.length (remove_nth n l)) = List.length l.
Proof.
  revert n. induction l as [|x l IH]; intros n Hn; simpl in *.
  - lia.
  - destruct n as [|n]; [reflexivity|].
    simpl. rewrite IH by lia. reflexivity.
Qed.

Lemma half_index (n : nat) : Z.to_nat (Z.of_nat n / 2) = (n / 2)%nat.
Proof.
  change 2 with (Z.of_nat 2). rewrite <- Nat2Z.inj_div. apply Nat2Z.id.
Qed.

(** Deleting the middle element succeeds exactly on a non-empty array. *)
Lemma np_delete_middle {A : Type} (arr : list A) :
  arr <> [] ->
  np_delete arr (Z.of_nat (List.length arr) / 2)
  = Ok (remove_nth (List.length arr / 2) arr).
Proof.
  intros Hne. unfold np_delete.
  assert (Hlen : (0 < List.length arr)%nat) by (destruct arr; simpl; [congruence | lia]).
  set (n := Z.of_nat (List.length arr)).
  assert (Hn : 0 < n) by (subst n; lia).
  assert (H0 : (n / 2 <? 0) = false) by (apply Z.ltb_ge; apply Z.div_pos; lia).
  rewrite H0.
  assert (H1 : (0 <=? n / 2) && (n / 2 <? n) = true).
  { apply andb_true_intro. split.
    - apply Z.leb_le. apply Z.div_pos; lia.
    - apply Z.ltb_lt. apply Z.div_lt; lia. }
  rewrite H1. subst n. rewrite half_index. reflexivity.
Qed.

Lemma np_delete_inv {A : Type} (arr out : list A) :
  np_delete arr (Z.of_nat (List.length arr) / 2) = Ok out ->
  arr <> [] /\ out = remove_nth (List.length arr / 2) arr.
Proof.
  intros H. destruct arr as [|x arr].
  - discriminate H.
  - assert (Hne : x :: arr <> []) by discriminate.
    rewrite (np_delete_middle _ Hne) in H. injection H as <-. now split.
Qed.

Lemma half_lt (n : nat) : (0 < n)%nat -> (n / 2 < n)%nat.
Proof. intros H. apply Nat.div_lt; lia. Qed.

Lemma py_repeat_length {A : Type} (k : Z) (x : A) :
  0 <= k -> Z.of_nat (List.length (py_repeat k x)) = k.
Proof. intros H. unfold py_repeat. rewrite repeat_length. lia. Qed.

(** ** [doubleit] *)

(** C5: on a three-element override [[a; b; c]] and a non-negative length [L],
    [doubleit] returns [a] repeated [L / 2] times, then [b] repeated
    [L mod 2] times, then [c] repeated [L / 2] times, a list of length [L];
    the default is not used. *)
Theorem doubleit_three_elements (a b c default : string) (L : Z) :
  0 <= L ->
  exists out,
    doubleit (ThingList [a; b; c]) L default = Ok out /\
    out = repeat a (Z.to_nat (L / 2)) ++ repeat b (Z.to_nat (L mod 2))
            ++ repeat c (Z.to_nat (L / 2)) /\
    Z.of_nat (List.length out) = L.
Proof.
  intros HL.
  assert (Hq : Z.quot L 2 = L / 2) by (apply Z.quot_div_nonneg; lia).
  exists (py_repeat (L / 2) a ++ py_repeat (L mod 2) b ++ py_repeat (L / 2) c).
  split; [|split].
  - unfold doubleit. rewrite Hq. reflexivity.
  - reflexivity.
  - pose proof (Z.div_mod L 2 ltac:(lia)) as Hdm.
    pose proof (Z.mod_pos_bound L 2 ltac:(lia)) as Hm.
    assert (Hd : 0 <= L / 2) by (apply Z.div_pos; lia).
    rewrite !length_app, !Nat2Z.inj_add, !py_repeat_length by lia.
    lia.
Qed.

(** ** [create_levels] *)

Lemma create_levels_bool_first (vals : list (list bool)) (rest : list Field)
  (levels : levels_arg) (q : float) :
  create_levels (BoolField vals :: rest) levels q
  = Ok (bool_levels, bool_levels, "neither", Some 1).
Proof.
  unfold create_levels. rewrite py_index_head. reflexivity.
Qed.

Lemma create_levels_float_first (vals : list (list float)) (rest : list Field)
  (levels : levels_arg) (q : float) :
  create_levels (FloatField vals :: rest) levels q
  = create_levels_inferred (FloatField vals :: rest) levels q.
Proof.
  unfold create_levels. rewrite py_index_head. reflexivity.
Qed.

Lemma fill_levels_inv (d : direction_t) (lc lcf : list float) :
  fill_levels d lc = Ok lcf ->
  (d = Some 0 /\ lc <> [] /\ lcf = remove_nth (List.length lc / 2) lc)
  \/ (d <> Some 0 /\ lcf = lc).
Proof.
  unfold fill_levels. destruct (direction_is d 0) eqn:Hd; intros H.
  - left. destruct d as [z|]; [|discriminate Hd].
    simpl in Hd. apply Z.eqb_eq in Hd. subst z.
    apply np_delete_inv in H. tauto.
  - right. injection H as <-. split; [|reflexivity].
    intros ->. discriminate Hd.
Qed.

(** Every value the inferred path returns carries the inferred direction, the
    extend policy chosen from [q], and fill levels derived from the full
    levels. *)
Lemma inferred_inv (to_plot : list Field) (levels : levels_arg) (q : float)
  (lc lcf : list float) (ext : string) (d : direction_t) :
  create_levels_inferred to_plot levels q = Ok (lc, lcf, ext, d) ->
  d = infer_direction to_plot /\
  (if PrimFloat.ltb q 1%float then extend_dict d else Ok "neither") = Ok ext /\
  fill_levels d lc = Ok lcf /\
  (forall l, levels = LevelsSeq l -> lc = l).
Proof.
  unfold create_levels_inferred.
  set (dir := infer_direction to_plot).
  destruct (if PrimFloat.ltb q 1%float then extend_dict dir else Ok "neither")
    as [e|err] eqn:He; [|discriminate].
  cbn [bind].
  destruct levels as [|n|l].
  - destruct (nanquantile _ _ _) as [[lo hi]|]; [|discriminate]. cbn [bind].
    destruct (MaxNLocator_tick_values _ _ _ _) as [t|]; [|discriminate].
    cbn [bind].
    destruct (fill_levels dir t) as [f|] eqn:Hf; [|discriminate]. cbn [bind].
    intros H. injection H as <- <- <- <-.
    repeat split; auto. intros l Hl. discriminate Hl.
  - destruct (nanquantile _ _ _) as [[lo hi]|]; [|discriminate]. cbn [bind].
    destruct (MaxNLocator_tick_values _ _ _ _) as [t|]; [|discriminate].
    cbn [bind].
    destruct (fill_levels dir t) as [f|] eqn:Hf; [|discriminate]. cbn [bind].
    intros H. injection H as <- <- <- <-.
    repeat split; auto. intros l Hl. discriminate Hl.
  - destruct (fill_levels dir l) as [f|] eqn:Hf; [|discriminate]. cbn [bind].
    intros H. injection H as <- <- <- <-.
    repeat split; auto. intros l' Hl. injection Hl as <-. reflexivity.
Qed.

Lemma non_bool_first (f0 : Field) (rest : list Field) (levels : levels_arg)
  (q : float) :
  field_dtype f0 <> dt_bool ->
  create_levels (f0 :: rest) levels q = create_levels_inferred (f0 :: rest) levels q.
Proof.
  intros H. destruct f0 as [v|v]; [now elim H|].
  apply create_levels_float_first.
Qed.

(** C1 (as amended): on a non-empty list of boolean fields, whatever [levels]
    and [q] are, [create_levels] returns the levels [0, 0.5, 1] twice, the
    extend policy "neither" and the direction flag 1 (positive-only, not 0);
    on any list of boolean fields it returns nothing else. *)
Theorem create_levels_boolean (to_plot : list Field) (levels : levels_arg)
  (q : float) :
  Forall (fun f => field_dtype f = dt_bool) to_plot ->
  (to_plot <> [] ->
   create_levels to_plot levels q
   = Ok ([0; 0.5; 1]%float, [0; 0.5; 1]%float, "neither", Some 1)) /\
  (forall out, create_levels to_plot levels q = Ok out ->
     out = ([0; 0.5; 1]%float, [0; 0.5; 1]%float, "neither", Some 1)).
Proof.
  intros Hall.
  destruct to_plot as [|f0 rest].
  - split; [intros H; now elim H|].
    intros out H. unfold create_levels in H.
    rewrite py_index_nil in H. discriminate H.
  - apply Forall_inv in Hall. destruct f0 as [v|v]; [|discriminate Hall].
    split; [intros _|intros out H]; pose proof (create_levels_bool_first v rest levels q) as E.
    + exact E.
    + rewrite E in H. injection H as <-. reflexivity.
Qed.

(** C3: for a non-boolean first field and inferred direction 0, the fill
    levels returned are the full levels without the element at index
    [len div 2], one element fewer: an explicit non-empty sequence is returned
    verbatim with that fill sequence, generated ticks likewise, and no call
    returns anything else. *)
Theorem create_levels_symmetric_fill (f0 : Field) (rest : list Field)
  (q : float) :
  field_dtype f0 <> dt_bool ->
  infer_direction (f0 :: rest) = Some 0 ->
  (forall l, l <> [] ->
     exists ext,
       create_levels (f0 :: rest) (LevelsSeq l) q
       = Ok (l, remove_nth (List.length l / 2) l, ext, Some 0)) /\
  (forall levels lo hi ticks,
     (forall l, levels <> LevelsSeq l) ->
     nanquantile (f0 :: rest) (PrimFloat.sub 1%float q) q = Ok (lo, hi) ->
     MaxNLocator_tick_values
       (match levels with LevelsInt n => n | _ => 4 end) true lo hi = Ok ticks ->
     ticks <> [] ->
     exists ext,
       create_levels (f0 :: rest) levels q
       = Ok (ticks, remove_nth (List.length ticks / 2) ticks, ext, Some 0)) /\
  (forall levels lc lcf ext d,
     create_levels (f0 :: rest) levels q = Ok (lc, lcf, ext, d) ->
     d = Some 0 /\
     lcf = remove_nth (List.length lc / 2) lc /\
     S (List.length lcf) = List.length lc /\
     (forall l, levels = LevelsSeq l -> lc = l)).
Proof.
  intros Hf0 Hdir.
  assert (Hext : exists e,
             (if PrimFloat.ltb q 1%float then extend_dict (Some 0) else Ok "neither")
             = Ok e).
  { destruct (PrimFloat.ltb q 1%float); eexists; reflexivity. }
  destruct Hext as [e He].
  split; [|split].
  - intros l Hl. exists e.
    rewrite non_bool_first by assumption.
    unfold create_levels_inferred. rewrite Hdir, He. cbn [bind].
    unfold fill_levels. cbn [direction_is]. rewrite Z.eqb_refl.
    rewrite np_delete_middle by assumption. reflexivity.
  - intros levels lo hi ticks Hnot Hq Ht Hne. exists e.
    rewrite non_bool_first by assumption.
    unfold create_levels_inferred. rewrite Hdir, He. cbn [bind].
    destruct levels as [|n|l]; [| |now elim (Hnot l)].
    + rewrite Hq. cbn [bind direction_is]. rewrite Z.eqb_refl.
      replace (0 =? 1) with false by reflexivity.
      replace (0 =? -1) with false by reflexivity.
      rewrite Ht. cbn [bind].
      unfold fill_levels. cbn [direction_is]. rewrite Z.eqb_refl.
      rewrite np_delete_middle by assumption. reflexivity.
    + rewrite Hq. cbn [bind direction_is]. rewrite Z.eqb_refl.
      replace (0 =? 1) with false by reflexivity.
      replace (0 =? -1) with false by reflexivity.
      rewrite Ht. cbn [bind].
      unfold fill_levels. cbn [direction_is]. rewrite Z.eqb_refl.
      rewrite np_delete_middle by assumption. reflexivity.
  - intros levels lc lcf ext d H.
    rewrite non_bool_first in H by assumption.
    apply inferred_inv in H. destruct H as (Hd & _ & Hfill & Hseq).
    rewrite Hdir in Hd. subst d.
    apply fill_levels_inv in Hfill.
    destruct Hfill as [(_ & Hne & ->)|(Hbad & _)]; [|now elim Hbad].
    repeat split; auto.
    apply remove_nth_length. apply half_lt.
    destruct lc; simpl; [now elim Hne | lia].
Qed.

(** C9: for a non-boolean first field and [q = 1] the extend policy returned
    is "neither" whatever direction is inferred: every returned value has it,
    and an explicit non-empty level sequence is always answered with it. *)
Theorem create_levels_q1_neither (f0 : Field) (rest : list Field) :
  field_dtype f0 <> dt_bool ->
  (forall levels lc lcf ext d,
     create_levels (f0 :: rest) levels 1%float = Ok (lc, lcf, ext, d) ->
     ext = "neither" /\ d = infer_direction (f0 :: rest)) /\
  (forall l, l <> [] ->
     exists lcf,
       create_levels (f0 :: rest) (LevelsSeq l) 1%float
       = Ok (l, lcf, "neither", infer_direction (f0 :: rest))).
Proof.
  intros Hf0. split.
  - intros levels lc lcf ext d H.
    rewrite non_bool_first in H by assumption.
    apply inferred_inv in H. destruct H as (Hd & He & _ & _).
    replace (PrimFloat.ltb 1%float 1%float) with false in He by reflexivity.
    injection He as <-. now split.
  - intros l Hl.
    rewrite non_bool_first by assumption.
    unfold create_levels_inferred.
    replace (PrimFloat.ltb 1%float 1%float) with false by reflexivity.
    cbn [bind]. unfold fill_levels.
    destruct (direction_is (infer_direction (f0 :: rest)) 0).
    + rewrite np_delete_middle by assumption. cbn [bind]. eexists. reflexivity.
    + cbn [bind]. eexists. reflexivity.
Qed.

(** C10: only the dtype of the first field decides. A boolean first field
    gives the fixed answer whatever the later fields, [levels] and [q] are; a
    continuous first field always runs the inference on the whole list, so
    that the direction returned is the inferred one, whatever the later
    fields are. *)
Theorem create_levels_first_field_decides (rest : list Field)
  (levels : levels_arg) (q : float) :
  (forall vals,
     create_levels (BoolField vals :: rest) levels q
     = Ok (bool_levels, bool_levels, "neither", Some 1)) /\
  (forall vals,
     create_levels (FloatField vals :: rest) levels q
     = create_levels_inferred (FloatField vals :: rest) levels q /\
     forall lc lcf ext d,
       create_levels (FloatField vals :: rest) levels q = Ok (lc, lcf, ext, d) ->
       d = infer_direction (FloatField vals :: rest) /\
       (if PrimFloat.ltb q 1%float then extend_dict d else Ok "neither") = Ok ext).
Proof.
  split.
  - intros vals. apply create_levels_bool_first.
  - intros vals. split; [apply create_levels_float_first|].
    intros lc lcf ext d H. rewrite create_levels_float_first in H.
    apply inferred_inv in H. tauto.
Qed.

(** ** [make_transparent] *)

Lemma set_last_length {A : Type} (v : A) (y : list A) :
  List.length (set_last v y) = List.length y.
Proof.
  destruct y as [|a y]; [reflexivity|].
  unfold set_last. rewrite length_app.
  assert (H : a :: y <> []) by discriminate.
  destruct (exists_last H) as (l' & z & E). rewrite E.
  rewrite removelast_last, length_app. reflexivity.
Qed.

Lemma arange_length (num : Z) : List.length (arange num) = Z.to_nat num.
Proof. unfold arange. rewrite length_map, length_seq. reflexivity. Qed.

(** [np.linspace] with a non-negative count returns that many samples. *)
Lemma np_linspace_length (start stop : float) (num : Z) :
  0 <= num ->
  exists pts,
    np_linspace start stop num = Ok pts /\ List.length pts = Z.to_nat num.
Proof.
  intros Hnum. unfold np_linspace.
  assert (H : (num <? 0) = false) by (apply Z.ltb_ge; lia).
  rewrite H. eexists. split; [reflexivity|].
  destruct (1 <? num); [rewrite set_last_length|];
    rewrite length_map;
    repeat match goal with
           | |- context [if ?b then _ else _] => destruct b
           end;
    rewrite length_map; apply arange_length.
Qed.

Lemma set_alpha_from_length (i lo hi : Z) (v : float) (cl : list RGBA) :
  List.length (set_alpha_from i lo hi v cl) = List.length cl.
Proof.
  revert i. induction cl as [|c cl IH]; intros i; simpl; [|rewrite IH]; reflexivity.
Qed.

Lemma set_alpha_from_nth (i lo hi : Z) (v : float) (cl : list RGBA) (k : nat) :
  nth_error (set_alpha_from i lo hi v cl) k
  = option_map
      (fun c => if (lo <=? i + Z.of_nat k) && (i + Z.of_nat k <? hi)
                then with_alpha c v else c)
      (nth_error cl k).
Proof.
  revert i k. induction cl as [|c cl IH]; intros i k.
  - destruct k; reflexivity.
  - destruct k as [|k]; simpl.
    + rewrite Z.add_0_r. reflexivity.
    + rewrite IH. replace (i + 1 + Z.of_nat k) with (i + Z.pos (Pos.of_succ_nat k)) by lia.
      reflexivity.
Qed.

Lemma assign_alpha_length (start stop : option Z) (v : float) (cl : list RGBA) :
  List.length (assign_alpha start stop v cl) = List.length cl.
Proof.
  unfold assign_alpha. destruct (slice_range _ start stop) as [lo hi].
  apply set_alpha_from_length.
Qed.

(** A slice assignment overwrites the alpha of the rows between the slice
    bounds and leaves the others. *)
Lemma assign_alpha_nth (start stop : option Z) (v : float) (cl : list RGBA)
  (k : nat) :
  nth_error (assign_alpha start stop v cl) k
  = option_map
      (fun c =>
         if (fst (slice_range (Z.of_nat (List.length cl)) start stop) <=? Z.of_nat k)
            && (Z.of_nat k <? snd (slice_range (Z.of_nat (List.length cl)) start stop))
         then with_alpha c v else c)
      (nth_error cl k).
Proof.
  unfold assign_alpha. destruct (slice_range _ start stop) as [lo hi].
  rewrite set_alpha_from_nth. reflexivity.
Qed.

Lemma filter_none {A : Type} (p : A -> bool) (l : list A) :
  (forall x, In x l -> p x = false) -> filter p l = [].
Proof.
  induction l as [|x l IH]; intros H; simpl; [reflexivity|].
  rewrite (H x (or_introl eq_refl)). apply IH.
  intros y Hy. apply H. now right.
Qed.

(** The number of positions below [len] that lie in [a, b). *)
Lemma count_interval (a b : Z) (len : nat) :
  0 <= a <= b -> b <= Z.of_nat len ->
  List.length
    (filter (fun k => (a <=? Z.of_nat k) && (Z.of_nat k <? b)) (seq 0 len))
  = Z.to_nat (b - a).
Proof.
  intros Hab. revert b Hab. induction len as [|len IH]; intros b Hab Hb.
  - simpl. lia.
  - destruct (Z.eq_dec a b) as [Eab|Eab].
    { rewrite filter_none; [simpl; lia|].
      intros k _. destruct (Z.leb_spec a (Z.of_nat k)), (Z.ltb_spec (Z.of_nat k) b);
        auto; lia. }
    rewrite seq_S, filter_app, length_app. simpl seq. simpl filter.
    destruct (Z.eq_dec b (Z.of_nat (S len))) as [E|E].
    + assert (Hin : (a <=? Z.of_nat len) && (Z.of_nat len <? b) = true).
      { apply andb_true_intro. split; [apply Z.leb_le | apply Z.ltb_lt]; lia. }
      rewrite Hin. simpl List.length.
      rewrite (filter_ext_in _
                 (fun k => (a <=? Z.of_nat k) && (Z.of_nat k <? Z.of_nat len))).
      * rewrite IH by lia. lia.
      * intros k Hk. apply in_seq in Hk. f_equal.
        destruct (Z.ltb_spec (Z.of_nat k) b),
          (Z.ltb_spec (Z.of_nat k) (Z.of_nat len)); auto; lia.
    + assert (Hnone : (a <=? Z.of_nat len) && (Z.of_nat len <? b) = false).
      { apply andb_false_intro2. apply Z.ltb_ge. lia. }
      rewrite Hnone. simpl List.length. rewrite IH by lia. lia.
Qed.

Lemma ceil_half_bounds (nlev : Z) :
  2 * ceil_half nlev - 1 <= nlev <= 2 * ceil_half nlev.
Proof.
  unfold ceil_half.
  pose proof (Z.div_mod (nlev + 1) 2 ltac:(lia)).
  pose proof (Z.mod_pos_bound (nlev + 1) 2 ltac:(lia)). lia.
Qed.

(** Case analysis on every integer comparison in sight. *)
Ltac zcases :=
  repeat match goal with
         | |- context [?a <? ?b] => destruct (Z.ltb_spec a b)
         | |- context [?a <=? ?b] => destruct (Z.leb_spec a b)
         | |- context [?a =? ?b] => destruct (Z.eqb_spec a b)
         end.

(** C2 (as amended): for a colormap, [nlev >= 1], [1 <= n_transparent <= nlev]
    and a direction in {-1, 0, 1}, [make_transparent] returns [nlev] colours
    ([nlev + 1] for direction 0); the alpha of an entry is zero exactly on a
    contiguous band and [alpha_others] elsewhere. The band is the lowest
    [n_transparent] entries for direction 1 and the highest [n_transparent]
    for direction -1; for direction 0, with
    [n_transparent <= ceil(nlev / 2)], it is the [2 * n_transparent - 1]
    entries centred on index [ceil(nlev / 2)]. *)
Theorem make_transparent_band (cmap : Colormap) (nlev n_transparent : Z)
  (alpha_others : float) (direction : Z) :
  1 <= nlev ->
  1 <= n_transparent <= nlev ->
  direction = -1 \/ direction = 0 \/ direction = 1 ->
  (direction = 0 -> n_transparent <= ceil_half nlev) ->
  exists colorlist,
    make_transparent (CmapObj cmap) (Some nlev) alpha_others n_transparent
      direction = Ok colorlist /\
    Z.of_nat (List.length colorlist)
    = nlev + (if direction =? 0 then 1 else 0) /\
    (forall k c, nth_error colorlist k = Some c ->
       rgba_a c
       = if transparent_band direction nlev n_transparent (Z.of_nat k)
         then 0%float else alpha_others) /\
    Z.of_nat
      (List.length
         (filter (fun k => transparent_band direction nlev n_transparent
                             (Z.of_nat k))
            (seq 0 (List.length colorlist))))
    = if direction =? 0 then 2 * n_transparent - 1 else n_transparent.
Proof.
  intros Hnlev Hn Hdir Hmid.
  pose proof (ceil_half_bounds nlev) as Hm.
  set (num := nlev + (if direction =? 0 then 1 else 0)).
  assert (Hnum : 0 <= num) by (subst num; destruct (direction =? 0); lia).
  destruct (np_linspace_length 0%float 1%float num Hnum) as (pts & Hpts & Hlen).
  set (cl0 := map (cmap_rgba cmap) pts).
  assert (Hlen0 : Z.of_nat (List.length cl0) = num).
  { subst cl0. rewrite length_map, Hlen. lia. }
  unfold make_transparent. cbn [resolve_cmap bind]. fold num. rewrite Hpts.
  cbn [bind]. fold cl0.
  assert (Hband : forall colorlist : list RGBA,
             List.length colorlist = List.length cl0 ->
             Z.of_nat
               (List.length
                  (filter (fun k => transparent_band direction nlev n_transparent
                                      (Z.of_nat k))
                     (seq 0 (List.length colorlist))))
             = if direction =? 0 then 2 * n_transparent - 1 else n_transparent).
  { intros colorlist ->. unfold transparent_band.
    destruct Hdir as [-> | [-> | ->]]; cbn [Z.eqb] in *.
    - rewrite (filter_ext_in _
                 (fun k => (nlev - n_transparent <=? Z.of_nat k)
                           && (Z.of_nat k <? nlev))).
      + rewrite count_interval by lia. lia.
      + intros k Hk. apply in_seq in Hk.
        destruct (Z.ltb_spec (Z.of_nat k) nlev); [|lia].
        now rewrite andb_true_r.
    - specialize (Hmid eq_refl).
      rewrite (filter_ext_in _
                 (fun k => (ceil_half nlev - n_transparent + 1 <=? Z.of_nat k)
                           && (Z.of_nat k <? ceil_half nlev + n_transparent))).
      + rewrite count_interval by lia. lia.
      + intros k _. f_equal. zcases; auto; lia.
    - rewrite (filter_ext_in _
                 (fun k => (0 <=? Z.of_nat k) && (Z.of_nat k <? n_transparent))).
      + rewrite count_interval by lia. lia.
      + intros k _. destruct (Z.leb_spec 0 (Z.of_nat k)); [reflexivity|lia]. }
  assert (Halpha : forall c v, rgba_a (with_alpha c v) = v) by reflexivity.
  destruct Hdir as [-> | [-> | ->]]; cbn [Z.eqb] in *.
  - (* direction -1: the highest entries *)
    eexists. split; [reflexivity|].
    split; [rewrite !assign_alpha_length; lia|].
    split; [|apply Hband; rewrite !assign_alpha_length; reflexivity].
    intros k c Hk. rewrite !assign_alpha_nth, !assign_alpha_length in Hk.
    destruct (nth_error cl0 k) as [c0|] eqn:Hc0; [|discriminate Hk].
    assert (Hklt : (k < List.length cl0)%nat) by (apply nth_error_Some; congruence).
    cbn [option_map] in Hk. injection Hk as <-.
    unfold transparent_band, slice_range, slice_bound. cbn [fst snd Z.eqb].
    rewrite Hlen0. zcases; cbn [andb]; rewrite ?Halpha; try reflexivity; lia.
  - (* direction 0: the entries around the midpoint *)
    specialize (Hmid eq_refl).
    eexists. split; [reflexivity|].
    split; [rewrite !assign_alpha_length; lia|].
    split; [|apply Hband; rewrite !assign_alpha_length; reflexivity].
    intros k c Hk. rewrite !assign_alpha_nth, !assign_alpha_length in Hk.
    destruct (nth_error cl0 k) as [c0|] eqn:Hc0; [|discriminate Hk].
    assert (Hklt : (k < List.length cl0)%nat) by (apply nth_error_Some; congruence).
    cbn [option_map] in Hk. injection Hk as <-.
    unfold transparent_band, slice_range, slice_bound. cbn [fst snd Z.eqb].
    rewrite Hlen0. zcases; cbn [andb]; rewrite ?Halpha; try reflexivity; lia.
  - (* direction 1: the lowest entries *)
    eexists. split; [reflexivity|].
    split; [rewrite !assign_alpha_length; lia|].
    split; [|apply Hband; rewrite !assign_alpha_length; reflexivity].
    intros k c Hk. rewrite !assign_alpha_nth, !assign_alpha_length in Hk.
    destruct (nth_error cl0 k) as [c0|] eqn:Hc0; [|discriminate Hk].
    assert (Hklt : (k < List.length cl0)%nat) by (apply nth_error_Some; congruence).
    cbn [option_map] in Hk. injection Hk as <-.
    unfold transparent_band, slice_range, slice_bound. cbn [fst snd Z.eqb].
    rewrite Hlen0. zcases; cbn [andb]; rewrite ?Halpha; try reflexivity; lia.
Qed.

(** ** Groups selected by a mask *)

Lemma for_each_nth {A B : Type} (f : A -> result B) (l : list A)
  (ys : list B) (g : nat) (x : A) :
  for_each f l = Ok ys ->
  nth_error l g = Some x ->
  exists y, f x = Ok y /\ nth_error ys g = Some y.
Proof.
  revert ys g. induction l as [|a l IH]; intros ys g Hall Hg.
  - destruct g; discriminate Hg.
  - simpl in Hall.
    destruct (f a) as [b|] eqn:Hfa; [|discriminate Hall]. cbn [bind] in Hall.
    destruct (for_each f l) as [bs|] eqn:Hrest; [|discriminate Hall].
    cbn [bind] in Hall. injection Hall as <-.
    destruct g as [|g]; simpl in Hg |- *.
    + injection Hg as <-. exists b. now split.
    + apply (IH bs g eq_refl Hg).
Qed.

Lemma for_each_total {A B : Type} (f : A -> result B) (l : list A) :
  (forall x, In x l -> exists y, f x = Ok y) ->
  exists ys, for_each f l = Ok ys.
Proof.
  induction l as [|a l IH]; intros H.
  - exists []. reflexivity.
  - destruct (H a (or_introl eq_refl)) as [b Hb].
    destruct IH as [bs Hbs]; [intros x Hx; apply H; now right|].
    exists (b :: bs). simpl. rewrite Hb. cbn [bind]. rewrite Hbs. reflexivity.
Qed.

Lemma da_copy_data_same (x : DataArray) (d : ndarray) :
  da_shape x = nd_shape d -> da_copy_data x d = Ok (mkDa (da_dims x) d).
Proof.
  intros H. unfold da_copy_data.
  destruct (list_eq_dec Nat.eq_dec (da_shape x) (nd_shape d)) as [_|N];
    [reflexivity | now elim N].
Qed.

(** The placeholder of an empty group in [add_stippling]: one all-zero time
    step of the spatial shape of the data. *)
Lemma stippling_group_empty (da : DataArray) (T : nat) (sp : list nat)
  (mas : list bool) :
  da_shape da = S T :: sp ->
  np_sum mas < 1 ->
  stippling_group da mas = Ok (mkDa (da_dims da) (np_zeros (1%nat :: sp))).
Proof.
  intros Hshape Hsum. unfold stippling_group.
  assert (H : (np_sum mas <? 1) = true) by (apply Z.ltb_lt; assumption).
  rewrite H. unfold da_head. rewrite Hshape. cbn [bind tl Nat.min].
  rewrite da_copy_data_same; reflexivity.
Qed.

(** The placeholder of an empty group in [add_any_contour_from_mask]: an
    all-zero field of the spatial shape of the data. *)
Lemma contour_group_empty (da : DataArray) (T : nat) (sp : list nat)
  (time_name : string) (mas : list bool) :
  da_shape da = S T :: sp ->
  np_sum mas < 1 ->
  contour_group da time_name mas = Ok (mkDa (tl (da_dims da)) (np_zeros sp)).
Proof.
  intros Hshape Hsum. unfold contour_group.
  assert (H : (np_sum mas <? 1) = true) by (apply Z.ltb_lt; assumption).
  rewrite H. unfold da_first. rewrite Hshape. cbn [bind tl].
  rewrite da_copy_data_same; reflexivity.
Qed.

(** C7 (as amended): when the data has at least one time step, a group whose
    mask column has no set member gets an all-zero placeholder of the spatial
    shape of the data in both [add_stippling] (as one time step) and
    [add_any_contour_from_mask], nothing is selected for it, and the loops
    that prepare the groups return whenever the selections of the other
    groups do. *)
Theorem empty_group_placeholder (da : DataArray) (T : nat) (sp : list nat)
  (mask : Mask) (g : nat) (mas : list bool) :
  da_shape da = S T :: sp ->
  nth_error mask g = Some mas ->
  np_sum mas < 1 ->
  stippling_group da mas = Ok (mkDa (da_dims da) (np_zeros (1%nat :: sp))) /\
  (forall time_name,
     contour_group da time_name mas
     = Ok (mkDa (tl (da_dims da)) (np_zeros sp))) /\
  (forall to_test,
     stippling_to_test da mask = Ok to_test ->
     nth_error to_test g = Some (mkDa (da_dims da) (np_zeros (1%nat :: sp)))) /\
  (forall to_plot,
     contour_to_plot da mask = Ok to_plot ->
     nth_error to_plot g = Some (mkDa (tl (da_dims da)) (np_zeros sp))) /\
  ((forall m, In m mask -> 1 <= np_sum m -> exists sel, isel da "time" m = Ok sel) ->
   exists to_test, stippling_to_test da mask = Ok to_test) /\
  (forall time_name,
     time_name_of da = Ok time_name ->
     (forall m, In m mask -> 1 <= np_sum m ->
        exists sel avg,
          isel da time_name m = Ok sel /\ mean_dim sel time_name = Ok avg) ->
     exists to_plot, contour_to_plot da mask = Ok to_plot).
Proof.
  intros Hshape Hg Hsum.
  split; [apply (stippling_group_empty da T sp mas Hshape Hsum)|].
  split; [intros tn; apply (contour_group_empty da T sp tn mas Hshape Hsum)|].
  split; [|split; [|split]].
  - intros to_test Hall.
    destruct (for_each_nth _ _ _ _ _ Hall Hg) as (y & Hy & Hnth).
    rewrite (stippling_group_empty da T sp mas Hshape Hsum) in Hy.
    injection Hy as <-. exact Hnth.
  - intros to_plot Hall. unfold contour_to_plot in Hall.
    destruct (time_name_of da) as [tn|]; [|discriminate Hall]. cbn [bind] in Hall.
    destruct (for_each_nth _ _ _ _ _ Hall Hg) as (y & Hy & Hnth).
    rewrite (contour_group_empty da T sp tn mas Hshape Hsum) in Hy.
    injection Hy as <-. exact Hnth.
  - intros Hsel. apply for_each_total. intros m Hm.
    destruct (Z_lt_le_dec (np_sum m) 1) as [Hlt|Hge].
    + eexists. apply (stippling_group_empty da T sp m Hshape Hlt).
    + destruct (Hsel m Hm Hge) as [sel Hs]. exists sel.
      unfold stippling_group.
      assert (H : (np_sum m <? 1) = false) by (apply Z.ltb_ge; assumption).
      rewrite H. exact Hs.
  - intros tn Htn Hsel. unfold contour_to_plot. rewrite Htn. cbn [bind].
    apply for_each_total. intros m Hm.
    destruct (Z_lt_le_dec (np_sum m) 1) as [Hlt|Hge].
    + eexists. apply (contour_group_empty da T sp tn m Hshape Hlt).
    + destruct (Hsel m Hm Hge) as (sel & avg & Hs & Ha). exists avg.
      unfold contour_group.
      assert (H : (np_sum m <? 1) = false) by (apply Z.ltb_ge; assumption).
      rewrite H, Hs. cbn [bind]. exact Ha.
Qed.

Lemma string_app_assoc (a b c : string) :
  ((a ++ b) ++ c)%string = (a ++ b ++ c)%string.
Proof.
  induction a as [|ch a IH]; simpl; [reflexivity|]. now rewrite IH.
Qed.

(** C8 (as amended): a [type] other than "contourf", "contour" and "both"
    always ends the call with an exception and the figure untouched: neither
    contour method nor the stippling runs. The type is looked at once the
    groups are prepared, so the exception is the [ValueError] whose message
    names the three allowed values when that preparation succeeds, and the
    exception of the preparation otherwise. *)
Theorem unknown_type_rejected (da : DataArray) (mask : Mask) (type : string)
  (stippling : stippling_arg) (kwargs : Kwargs) (fig : Fig) :
  ~ In type allowed_types ->
  add_any_contour_from_mask da mask type stippling kwargs fig
  = (fig,
     Raise match contour_to_plot da mask with
           | Ok _ => ValueError (wrong_type_message type)
           | Raise e => e
           end) /\
  (forall t, In t allowed_types ->
     exists pre post, wrong_type_message type = (pre ++ quoted t ++ post)%string).
Proof.
  intros Hnot. split.
  - unfold add_any_contour_from_mask.
    destruct (contour_to_plot da mask) as [to_plot|e]; [|reflexivity].
    assert (H1 : String.eqb type "contourf" = false).
    { apply String.eqb_neq. intros ->. apply Hnot. simpl. auto. }
    assert (H2 : String.eqb type "contour" = false).
    { apply String.eqb_neq. intros ->. apply Hnot. simpl. auto. }
    assert (H3 : String.eqb type "both" = false).
    { apply String.eqb_neq. intros ->. apply Hnot. simpl. auto. }
    rewrite H1, H2, H3. reflexivity.
  - intros t Ht. unfold wrong_type_message.
    destruct Ht as [<-|[<-|[<-|[]]]].
    + exists ("Wrong type=" ++ py_repr type ++ ", choose among ")%string.
      eexists. rewrite !string_app_assoc. reflexivity.
    + exists ("Wrong type=" ++ py_repr type ++ ", choose among "
                ++ quoted "contourf" ++ ", ")%string.
      eexists. rewrite !string_app_assoc. reflexivity.
    + exists ("Wrong type=" ++ py_repr type ++ ", choose among "
                ++ quoted "contourf" ++ ", " ++ quoted "contour" ++ " or ")%string.
      exists ""%string. rewrite !string_app_assoc. reflexivity.
Qed.

(** ** [cluster_on_fig] *)

Lemma newcs_length (dx dy : float) (coord : point) :
  List.length (newcs dx dy coord) = 9%nat.
Proof. unfold newcs. rewrite length_map. reflexivity. Qed.

(** The tiling loop appends, for every pair it visits, the points of [newcs]
    and as many copies of the label. *)
Lemma tile_loop (dx dy : float) (items : list (point * Z))
  (coords : list point) (clu_labs : list Z) :
  fold_left (tile_step dx dy) items (coords, clu_labs)
  = (coords ++ flat_map (fun item => newcs dx dy (fst item)) items,
     clu_labs ++ flat_map (fun item => repeat (snd item) 9) items).
Proof.
  revert coords clu_labs.
  induction items as [|[coord val] items IH]; intros coords clu_labs.
  - simpl. now rewrite !app_nil_r.
  - cbn [fold_left tile_step flat_map fst snd].
    rewrite IH, newcs_length, <- !app_assoc. reflexivity.
Qed.

Lemma combine_app_same {A B : Type} (a a' : list A) (b b' : list B) :
  List.length a = List.length b ->
  combine (a ++ a') (b ++ b') = combine a b ++ combine a' b'.
Proof.
  revert b. induction a as [|x a IH]; intros [|y b] H; simpl in *;
    try discriminate; [reflexivity|].
  rewrite IH by congruence. reflexivity.
Qed.

Lemma combine_replicas (dx dy : float) (items : list (point * Z)) :
  combine (flat_map (fun item => newcs dx dy (fst item)) items)
    (flat_map (fun item => repeat (snd item) 9) items)
  = flat_map (fun item => map (fun p => (p, snd item)) (newcs dx dy (fst item)))
      items.
Proof.
  induction items as [|[coord val] items IH]; [reflexivity|].
  cbn [flat_map fst snd].
  rewrite combine_app_same by (now rewrite newcs_length, repeat_length).
  rewrite IH. reflexivity.
Qed.

(** C4 (as amended): with the spacings [dx] and [dy] read off the panels,
    the cloud the interpolation is built from is the original points followed,
    for every panel point with a label, by nine replicas at the offsets
    [(sx * dx / 2.01, sy * dy / 2.01)], [sx] and [sy] in {-1, 0, 1}: the eight
    neighbours at just under half the spacing and a copy of the point itself
    at offset zero. Every replica carries the label of its point. *)
Theorem tile_cloud_replicas (nrow : Z) (coords : list point)
  (clu_labs : list Z) (dx dy : float) :
  panel_spacing nrow coords = Ok (dx, dy) ->
  let items := combine coords clu_labs in
  tile_cloud nrow coords clu_labs
  = Ok (coords ++ flat_map (fun item => newcs dx dy (fst item)) items,
        clu_labs ++ flat_map (fun item => repeat (snd item) 9) items) /\
  (forall cx cy,
     newcs dx dy (cx, cy)
     = [(cx + -1 * dx / 2.01, cy + -1 * dy / 2.01);
        (cx + -1 * dx / 2.01, cy + 0 * dy / 2.01);
        (cx + -1 * dx / 2.01, cy + 1 * dy / 2.01);
        (cx + 0 * dx / 2.01, cy + -1 * dy / 2.01);
        (cx + 0 * dx / 2.01, cy + 0 * dy / 2.01);
        (cx + 0 * dx / 2.01, cy + 1 * dy / 2.01);
        (cx + 1 * dx / 2.01, cy + -1 * dy / 2.01);
        (cx + 1 * dx / 2.01, cy + 0 * dy / 2.01);
        (cx + 1 * dx / 2.01, cy + 1 * dy / 2.01)]%float) /\
  (List.length coords = List.length clu_labs ->
   forall tiled tiled_labs,
     tile_cloud nrow coords clu_labs = Ok (tiled, tiled_labs) ->
     combine tiled tiled_labs
     = items
         ++ flat_map
              (fun item => map (fun p => (p, snd item)) (newcs dx dy (fst item)))
              items /\
     List.length tiled = (10 * List.length coords)%nat).
Proof.
  intros Hsp items.
  assert (Htile : tile_cloud nrow coords clu_labs
                  = Ok (coords ++ flat_map (fun item => newcs dx dy (fst item)) items,
                        clu_labs ++ flat_map (fun item => repeat (snd item) 9) items)).
  { unfold tile_cloud. rewrite Hsp. cbn [bind]. rewrite tile_loop. reflexivity. }
  split; [exact Htile|]. split; [reflexivity|].
  intros Hlen tiled tiled_labs H. rewrite Htile in H. injection H as <- <-.
  split.
  - rewrite combine_app_same by assumption. now rewrite combine_replicas.
  - rewrite length_app.
    assert (Hitems : List.length items = List.length coords).
    { subst items. rewrite length_combine. lia. }
    rewrite <- Hitems. clear.
    induction items as [|it items IH]; [reflexivity|].
    cbn [flat_map]. rewrite length_app, newcs_length. simpl List.length. lia.
Qed.

(** The patches of one label all have the style chosen for that label. *)
Lemma label_patches_style (colors : list color) (reduced_coords : list point)
  (clu_labs : list Z) (x y : list float) (i : nat) (lab : Z)
  (ps : list PathPatch) (p : PathPatch) :
  label_patches colors reduced_coords clu_labs x y i lab = Ok ps ->
  In p ps ->
  (lab = 0 ->
   pp_fc p = ColorName "black" /\ pp_alpha p = 0.2%float /\
   pp_ec p = ColorName "none" /\ pp_ls p = "none") /\
  (lab <> 0 ->
   pp_fc p = ColorName "none" /\
   py_index colors (Z.of_nat i) = Ok (pp_ec p) /\
   (0 <= lab -> pp_ls p = "solid") /\
   (lab < 0 -> pp_ls p = "dashed")).
Proof.
  unfold label_patches. intros H Hin.
  destruct (Z.eqb_spec lab 0) as [E|E].
  - injection H as <-. apply in_map_iff in Hin. destruct Hin as (q & <- & _).
    split; [intros _; repeat split | intros N; now elim N].
  - destruct (py_index colors (Z.of_nat i)) as [ec|] eqn:Hec; [|discriminate H].
    cbn [bind] in H. injection H as <-.
    apply in_map_iff in Hin. destruct Hin as (q & <- & _).
    split; [intros N; now elim E|]. intros _. cbn [pp_fc pp_ec pp_ls].
    repeat split.
    + intros Hpos. destruct (Z.leb_spec 0 lab); [reflexivity|lia].
    + intros Hneg. destruct (Z.leb_spec 0 lab); [lia|reflexivity].
Qed.

(** Every patch the loop adds comes from the pass of one label. *)
Lemma label_loop_origin (colors : list color) (reduced_coords : list point)
  (clu_labs : list Z) (x y : list float) (labs : list Z) (i : nat)
  (p : PathPatch) :
  In p (fst (label_loop colors reduced_coords clu_labs x y i labs)) ->
  exists j lab ps,
    nth_error labs j = Some lab /\
    label_patches colors reduced_coords clu_labs x y (i + j) lab = Ok ps /\
    In p ps.
Proof.
  revert i. induction labs as [|lab labs IH]; intros i Hin.
  - simpl in Hin. contradiction.
  - cbn [label_loop] in Hin.
    destruct (label_patches colors reduced_coords clu_labs x y i lab)
      as [ps|] eqn:Hps; [|simpl in Hin; contradiction].
    destruct (label_loop colors reduced_coords clu_labs x y (S i) labs)
      as [more r] eqn:Hmore.
    cbn [fst] in Hin. apply in_app_iff in Hin. destruct Hin as [Hin|Hin].
    + exists 0%nat, lab, ps. rewrite Nat.add_0_r. now repeat split.
    + specialize (IH (S i)). rewrite Hmore in IH.
      destruct (IH Hin) as (j & lab' & ps' & Hj & Hps' & Hin').
      exists (S j), lab', ps'. rewrite Nat.add_succ_r. now repeat split.
Qed.

(** C6: every patch [cluster_on_fig] adds to the figure was generated for one
    of the unique labels. A patch generated for label 0 is filled in black at
    alpha 0.2 with no edge; a patch generated for another label has no fill,
    the colour of its label as edge colour, and a solid line for a label
    [>= 0], a dashed one for a label [< 0]. *)
Theorem cluster_on_fig_patch_styles (self : Clusterplot) (coords : list point)
  (clu_labs : list Z) (cmap : cluster_cmap) (p : PathPatch) :
  In p (fst (cluster_on_fig self coords clu_labs cmap)) ->
  exists colors reduced_coords tiled_labs x y i lab ps,
    cluster_setup self coords clu_labs cmap
    = Ok (colors, reduced_coords, tiled_labs, x, y) /\
    nth_error (np_unique clu_labs) i = Some lab /\
    label_patches colors reduced_coords tiled_labs x y i lab = Ok ps /\
    In p ps /\
    (lab = 0 ->
     pp_fc p = ColorName "black" /\ pp_alpha p = 0.2%float /\
     pp_ec p = ColorName "none" /\ pp_ls p = "none") /\
    (lab <> 0 ->
     pp_fc p = ColorName "none" /\
     py_index colors (Z.of_nat i) = Ok (pp_ec p) /\
     (0 <= lab -> pp_ls p = "solid") /\
     (lab < 0 -> pp_ls p = "dashed")).
Proof.
  unfold cluster_on_fig. intros Hin.
  destruct (cluster_setup self coords clu_labs cmap)
    as [[[[[colors rc] tl] x] y]|] eqn:Hsetup; [|simpl in Hin; contradiction].
  apply label_loop_origin in Hin. destruct Hin as (j & lab & ps & Hj & Hps & Hin).
  cbn [Nat.add] in Hps.
  destruct (label_patches_style _ _ _ _ _ _ _ _ _ Hps Hin) as [Hzero Hother].
  exists colors, rc, tl, x, y, j, lab, ps.
  split; [reflexivity|]. split; [exact Hj|]. split; [exact Hps|].
  split; [exact Hin|]. split; [exact Hzero | exact Hother].
Qed.

(** * Further properties *)

(** ** [doubleit] on every kind of argument *)

(** X1: whatever [thing] is, a result of [doubleit] for a non-negative
    [length] has exactly [length] entries. *)
Theorem doubleit_length (thing : thing_arg) (L : Z) (default : string)
  (out : list string) :
  0 <= L ->
  doubleit thing L default = Ok out ->
  Z.of_nat (List.length out) = L.
Proof.
  intros HL H.
  assert (Hq : Z.quot L 2 = L / 2) by (apply Z.quot_div_nonneg; lia).
  pose proof (Z.div_mod L 2 ltac:(lia)) as Hdm.
  pose proof (Z.mod_pos_bound L 2 ltac:(lia)) as Hm.
  assert (Hd : 0 <= L / 2) by (apply Z.div_pos; lia).
  assert (Hsum : forall a b c : string,
             Z.of_nat (List.length (py_repeat (L / 2) a ++ py_repeat (L mod 2) b
                                      ++ py_repeat (L / 2) c)) = L).
  { intros a b c.
    rewrite !length_app, !Nat2Z.inj_add, !py_repeat_length by lia. lia. }
  destruct thing as [s|l|]; cbn [doubleit] in H.
  - injection H as <-. apply py_repeat_length. exact HL.
  - rewrite Hq in H. destruct (List.length l =? 3)%nat.
    + destruct (py_index l 0) as [t0|]; [|discriminate H]. cbn [bind] in H.
      destruct (py_index l 1) as [t1|]; [|discriminate H]. cbn [bind] in H.
      destruct (py_index l 2) as [t2|]; [|discriminate H]. cbn [bind] in H.
      injection H as <-. apply Hsum.
    + destruct (py_index l 0) as [t0|]; [|discriminate H]. cbn [bind] in H.
      destruct (py_index l 1) as [t1|]; [|discriminate H]. cbn [bind] in H.
      injection H as <-. apply Hsum.
  - injection H as <-. apply py_repeat_length. exact HL.
Qed.

(** X2: a list with fewer than two entries makes [doubleit] raise
    [IndexError], whatever the length asked for, 0 included. *)
Theorem doubleit_short_list (l : list string) (L : Z) (default : string) :
  (List.length l < 2)%nat ->
  doubleit (ThingList l) L default = Raise IndexError.
Proof.
  intros H. destruct l as [|a [|b l]]; [reflexivity | reflexivity |].
  simpl in H. lia.
Qed.

(** X3: of a list whose length is not 3, [doubleit] uses the first two
    entries only, with the default in the middle: a fourth and later entries
    are never looked at. *)
Theorem doubleit_first_two (a b : string) (rest : list string) (L : Z)
  (default : string) :
  List.length rest <> 1%nat ->
  0 <= L ->
  doubleit (ThingList (a :: b :: rest)) L default
  = Ok (repeat a (Z.to_nat (L / 2)) ++ repeat default (Z.to_nat (L mod 2))
          ++ repeat b (Z.to_nat (L / 2))).
Proof.
  intros Hrest HL.
  assert (Hq : Z.quot L 2 = L / 2) by (apply Z.quot_div_nonneg; lia).
  unfold doubleit. rewrite Hq.
  assert (Hlen : (List.length (a :: b :: rest) =? 3)%nat = false).
  { apply Nat.eqb_neq. simpl. lia. }
  assert (H1 : py_index (a :: b :: rest) 1 = Ok b)
    by exact (py_index_nat (a :: b :: rest) 1 b eq_refl).
  rewrite Hlen, py_index_head. cbn [bind]. rewrite H1. reflexivity.
Qed.

(** ** [create_levels] on every input *)

Lemma create_levels_inv (to_plot : list Field) (levels : levels_arg)
  (q : float) (lc lcf : list float) (ext : string) (d : direction_t) :
  create_levels to_plot levels q = Ok (lc, lcf, ext, d) ->
  (exists vals rest,
     to_plot = BoolField vals :: rest /\
     (lc, lcf, ext, d) = (bool_levels, bool_levels, "neither", Some 1)) \/
  (exists vals rest,
     to_plot = FloatField vals :: rest /\
     create_levels_inferred to_plot levels q = Ok (lc, lcf, ext, d)).
Proof.
  intros H. destruct to_plot as [|[vals|vals] rest].
  - unfold create_levels in H. rewrite py_index_nil in H. discriminate H.
  - left. exists vals, rest. split; [reflexivity|].
    rewrite create_levels_bool_first in H. injection H as <- <- <- <-.
    reflexivity.
  - right. exists vals, rest. split; [reflexivity|].
    now rewrite create_levels_float_first in H.
Qed.

(** X4: for a non-boolean first field and [q < 1], a direction outside
    -1, 0 and 1 ([None] among them) makes [create_levels] raise [KeyError],
    whatever [levels] is: the seven default levels of an undetermined
    direction are out of reach unless [q >= 1]. *)
Theorem create_levels_no_direction (f0 : Field) (rest : list Field)
  (levels : levels_arg) (q : float) :
  field_dtype f0 <> dt_bool ->
  PrimFloat.ltb q 1%float = true ->
  ~ In (infer_direction (f0 :: rest)) [Some (-1); Some 0; Some 1] ->
  create_levels (f0 :: rest) levels q = Raise KeyError.
Proof.
  intros Hf0 Hq Hd. rewrite non_bool_first by assumption.
  unfold create_levels_inferred. rewrite Hq.
  assert (He : extend_dict (infer_direction (f0 :: rest)) = Raise KeyError).
  { destruct (infer_direction (f0 :: rest)) as [[|[p|p|]|[p|p|]]|];
      try reflexivity; elim Hd; simpl; auto. }
  rewrite He. reflexivity.
Qed.

(** X5: for a non-boolean first field and [q < 1], every value returned
    pairs the direction with its extend policy: -1 with "min", 0 with "both",
    1 with "max". *)
Theorem create_levels_extend_policy (f0 : Field) (rest : list Field)
  (levels : levels_arg) (q : float) (lc lcf : list float) (ext : string)
  (d : direction_t) :
  field_dtype f0 <> dt_bool ->
  PrimFloat.ltb q 1%float = true ->
  create_levels (f0 :: rest) levels q = Ok (lc, lcf, ext, d) ->
  d = infer_direction (f0 :: rest) /\
  ((d = Some (-1) /\ ext = "min") \/ (d = Some 0 /\ ext = "both")
   \/ (d = Some 1 /\ ext = "max")).
Proof.
  intros Hf0 Hq H. rewrite non_bool_first in H by assumption.
  apply inferred_inv in H. destruct H as (Hd & He & _ & _).
  split; [exact Hd|]. rewrite Hq in He.
  destruct d as [[|[p|p|]|[p|p|]]|]; try discriminate He;
    injection He as <-; auto.
Qed.

(** X6: whenever the direction returned is not 0, boolean fields included,
    the fill levels are the full levels, unchanged. *)
Theorem create_levels_one_sided_fill (to_plot : list Field)
  (levels : levels_arg) (q : float) (lc lcf : list float) (ext : string)
  (d : direction_t) :
  create_levels to_plot levels q = Ok (lc, lcf, ext, d) ->
  d <> Some 0 ->
  lcf = lc.
Proof.
  intros H Hd. apply create_levels_inv in H.
  destruct H as [(vals & rest & _ & E)|(vals & rest & _ & H)].
  - injection E as -> -> _ _. reflexivity.
  - apply inferred_inv in H. destruct H as (_ & _ & Hfill & _).
    apply fill_levels_inv in Hfill.
    destruct Hfill as [(E & _)|(_ & E)]; [now elim Hd | exact E].
Qed.

(** X7: [create_levels] raises [IndexError] on an empty list of fields, and,
    for a non-boolean first field with [q < 1], on an empty explicit level
    sequence when the direction is 0, where there is no middle level to
    delete. *)
Theorem create_levels_index_errors (levels : levels_arg) (q : float) :
  create_levels [] levels q = Raise IndexError /\
  (forall f0 rest,
     field_dtype f0 <> dt_bool ->
     PrimFloat.ltb q 1%float = true ->
     infer_direction (f0 :: rest) = Some 0 ->
     create_levels (f0 :: rest) (LevelsSeq []) q = Raise IndexError).
Proof.
  split.
  - unfold create_levels. rewrite py_index_nil. reflexivity.
  - intros f0 rest Hf0 Hq Hd. rewrite non_bool_first by assumption.
    unfold create_levels_inferred. rewrite Hq, Hd. reflexivity.
Qed.

(** ** [make_transparent] on every input *)

Lemma set_alpha_from_rgb (i lo hi : Z) (v : float) (cl : list RGBA) :
  map rgb_of (set_alpha_from i lo hi v cl) = map rgb_of cl.
Proof.
  revert i. induction cl as [|c cl IH]; intros i; simpl; [reflexivity|].
  rewrite IH. destruct ((lo <=? i) && (i <? hi)); reflexivity.
Qed.

Lemma assign_alpha_rgb (start stop : option Z) (v : float) (cl : list RGBA) :
  map rgb_of (assign_alpha start stop v cl) = map rgb_of cl.
Proof.
  unfold assign_alpha. destruct (slice_range _ start stop) as [lo hi].
  apply set_alpha_from_rgb.
Qed.

(** What [make_transparent] computes once the colormap is resolved and
    sampled. *)
Lemma make_transparent_sampled (cmap : cmap_arg) (nlev : option Z)
  (alpha_others : float) (n_transparent direction : Z) (cl : list RGBA) :
  make_transparent cmap nlev alpha_others n_transparent direction = Ok cl ->
  exists cm pts,
    resolve_cmap cmap = Ok cm /\
    np_linspace 0%float 1%float
      (match nlev with None => cmap_N cm | Some n => n end
       + (if direction =? 0 then 1 else 0)) = Ok pts /\
    make_transparent (CmapObj cm)
      (Some (match nlev with None => cmap_N cm | Some n => n end))
      alpha_others n_transparent direction = Ok cl.
Proof.
  unfold make_transparent. intros H.
  destruct (resolve_cmap cmap) as [cm|] eqn:Hcm; [|discriminate H].
  cbn [bind] in H.
  destruct (np_linspace _ _ _) as [pts|] eqn:Hpts; [|discriminate H].
  cbn [bind] in H.
  exists cm, pts. split; [reflexivity|]. split; [exact Hpts|].
  cbn [resolve_cmap bind]. rewrite Hpts. cbn [bind]. exact H.
Qed.

(** X8: [make_transparent] returns for every [n_transparent], direction and
    opacity once the colormap is known and the number of samples is not
    negative: slices never go out of bounds. The result has [nlev] colours,
    [cmap.N] when [nlev] is [None], and one more for direction 0. *)
Theorem make_transparent_total (cmap : cmap_arg) (cm : Colormap)
  (nlev : option Z) (alpha_others : float) (n_transparent direction : Z) :
  resolve_cmap cmap = Ok cm ->
  0 <= match nlev with None => cmap_N cm | Some n => n end
       + (if direction =? 0 then 1 else 0) ->
  exists colorlist,
    make_transparent cmap nlev alpha_others n_transparent direction
    = Ok colorlist /\
    Z.of_nat (List.length colorlist)
    = match nlev with None => cmap_N cm | Some n => n end
      + (if direction =? 0 then 1 else 0).
Proof.
  intros Hcm Hnum.
  destruct (np_linspace_length 0%float 1%float _ Hnum) as (pts & Hpts & Hlen).
  unfold make_transparent. rewrite Hcm. cbn [bind]. rewrite Hpts. cbn [bind].
  destruct (direction =? 0); [|destruct (direction =? 1)];
    (eexists; split; [reflexivity|]);
    rewrite !assign_alpha_length, length_map, Hlen; lia.
Qed.

(** X9: [make_transparent] raises [KeyError] for a colormap name that is not
    registered and [ValueError] for a negative number of samples. *)
Theorem make_transparent_errors (alpha_others : float)
  (n_transparent direction : Z) :
  (forall name nlev,
     mpl_colormaps name = None ->
     make_transparent (CmapName name) nlev alpha_others n_transparent direction
     = Raise KeyError) /\
  (forall cm nlev,
     nlev + (if direction =? 0 then 1 else 0) < 0 ->
     exists msg,
       make_transparent (CmapObj cm) (Some nlev) alpha_others n_transparent
         direction = Raise (ValueError msg)).
Proof.
  split.
  - intros name nlev H. unfold make_transparent, resolve_cmap. rewrite H.
    reflexivity.
  - intros cm nlev H. unfold make_transparent. cbn [resolve_cmap bind].
    unfold np_linspace.
    assert (Hneg : (nlev + (if direction =? 0 then 1 else 0) <? 0) = true)
      by (apply Z.ltb_lt; exact H).
    rewrite Hneg. eexists. reflexivity.
Qed.

(** X10: [make_transparent] only writes the alpha channel: red, green and
    blue of every entry are those the colormap gives at the sample points of
    [np.linspace(0, 1, ...)]. *)
Theorem make_transparent_keeps_rgb (cmap : cmap_arg) (nlev : option Z)
  (alpha_others : float) (n_transparent direction : Z) (cl : list RGBA) :
  make_transparent cmap nlev alpha_others n_transparent direction = Ok cl ->
  exists cm pts,
    resolve_cmap cmap = Ok cm /\
    np_linspace 0%float 1%float
      (match nlev with None => cmap_N cm | Some n => n end
       + (if direction =? 0 then 1 else 0)) = Ok pts /\
    map rgb_of cl = map (fun x => rgb_of (cmap_rgba cm x)) pts.
Proof.
  intros H. destruct (make_transparent_sampled _ _ _ _ _ _ H)
    as (cm & pts & Hcm & Hpts & H').
  exists cm, pts. split; [exact Hcm|]. split; [exact Hpts|].
  unfold make_transparent in H'. cbn [resolve_cmap bind] in H'.
  rewrite Hpts in H'. cbn [bind] in H'.
  destruct (direction =? 0); [|destruct (direction =? 1)];
    injection H' as <-; rewrite !assign_alpha_rgb, map_map; reflexivity.
Qed.

(** X11: in every result of [make_transparent] the alpha of an entry is 0 or
    [alpha_others]: no entry keeps the alpha of the colormap, whatever
    [n_transparent] and the direction are. *)
Theorem make_transparent_two_alphas (cmap : cmap_arg) (nlev : option Z)
  (alpha_others : float) (n_transparent direction : Z) (cl : list RGBA)
  (c : RGBA) :
  make_transparent cmap nlev alpha_others n_transparent direction = Ok cl ->
  In c cl ->
  rgba_a c = 0%float \/ rgba_a c = alpha_others.
Proof.
  intros H Hin. destruct (make_transparent_sampled _ _ _ _ _ _ H)
    as (cm & pts & _ & Hpts & H').
  clear H. unfold make_transparent in H'. cbn [resolve_cmap bind] in H'.
  rewrite Hpts in H'. cbn [bind] in H'.
  apply In_nth_error in Hin. destruct Hin as [k Hk].
  set (cl0 := map (cmap_rgba cm) pts) in *.
  assert (Halpha : forall x v, rgba_a (with_alpha x v) = v) by reflexivity.
  destruct (direction =? 0); [|destruct (direction =? 1)];
    injection H' as <-;
    rewrite !assign_alpha_nth, !assign_alpha_length in Hk;
    (destruct (nth_error cl0 k) as [c0|] eqn:Hc0; [|discriminate Hk]);
    assert (Hklt : (k < List.length cl0)%nat)
      by (apply nth_error_Some; congruence);
    cbn [option_map] in Hk; injection Hk as <-;
    unfold slice_range, slice_bound; cbn [fst snd];
    zcases; cbn [andb]; rewrite ?Halpha; auto; lia.
Qed.

(** X12: with [n_transparent = 0], direction 1 leaves every entry at
    [alpha_others], but a direction other than 0 and 1 makes every entry
    transparent: the slice [-0:] is the whole array. *)
Theorem make_transparent_zero_count (cm : Colormap) (nlev : Z)
  (alpha_others : float) (direction : Z) (cl : list RGBA) (c : RGBA) :
  direction <> 0 ->
  make_transparent (CmapObj cm) (Some nlev) alpha_others 0 direction = Ok cl ->
  In c cl ->
  rgba_a c = if direction =? 1 then alpha_others else 0%float.
Proof.
  intros Hdir H Hin. unfold make_transparent in H. cbn [resolve_cmap bind] in H.
  destruct (np_linspace _ _ _) as [pts|]; [|discriminate H]. cbn [bind] in H.
  apply In_nth_error in Hin. destruct Hin as [k Hk].
  set (cl0 := map (cmap_rgba cm) pts) in *.
  assert (Halpha : forall x v, rgba_a (with_alpha x v) = v) by reflexivity.
  destruct (Z.eqb_spec direction 0) as [E|_]; [now elim Hdir|].
  destruct (direction =? 1);
    injection H as <-;
    rewrite !assign_alpha_nth, !assign_alpha_length in Hk;
    (destruct (nth_error cl0 k) as [c0|] eqn:Hc0; [|discriminate Hk]);
    assert (Hklt : (k < List.length cl0)%nat)
      by (apply nth_error_Some; congruence);
    cbn [option_map] in Hk; injection Hk as <-;
    unfold slice_range, slice_bound; cbn [fst snd Z.opp];
    zcases; cbn [andb]; rewrite ?Halpha; auto; lia.
Qed.

(** ** Panel order and the honeycomb grid *)

(** X13: for a positive [height], [to_prettier_order] sends the positions
    [0 .. width * height - 1] to subplot numbers between 1 and
    [width * height], and sends different positions to different numbers;
    a zero [height] raises [ZeroDivisionError]. *)
Theorem to_prettier_order_injective (width height n m : Z) :
  0 < height ->
  0 <= n < width * height ->
  0 <= m < width * height ->
  (exists k l,
     to_prettier_order n width height = Returns k /\
     to_prettier_order m width height = Returns l /\
     1 <= k <= width * height /\
     (k = l -> n = m)) /\
  to_prettier_order n width 0 = Raises ZeroDivisionError.
Proof.
  intros Hh Hn Hm. split; [|reflexivity].
  assert (Hne : (height =? 0) = false) by (apply Z.eqb_neq; lia).
  unfold to_prettier_order, py_divmod. rewrite Hne.
  do 2 eexists. split; [reflexivity|]. split; [reflexivity|].
  pose proof (Z.div_mod n height ltac:(lia)) as Dn.
  pose proof (Z.mod_pos_bound n height Hh) as Rn.
  pose proof (Z.div_mod m height ltac:(lia)) as Dm.
  pose proof (Z.mod_pos_bound m height Hh) as Rm.
  assert (Cn : 0 <= n / height < width).
  { split; [apply Z.div_pos; lia|].
    apply Z.div_lt_upper_bound; [lia|]. rewrite Z.mul_comm. lia. }
  assert (Cm : 0 <= m / height < width).
  { split; [apply Z.div_pos; lia|].
    apply Z.div_lt_upper_bound; [lia|]. rewrite Z.mul_comm. lia. }
  split.
  - split; nia.
  - intros E.
    assert (Hrow : n mod height = m mod height) by nia.
    assert (Hcol : n / height = m / height) by nia.
    rewrite Dn, Dm, Hrow, Hcol. reflexivity.
Qed.

(** X14: every subplot number between 1 and [width * height] is the
    [to_prettier_order] of a position: on the positions of a
    [width] by [height] grid the function is a bijection onto the subplot
    numbers. *)
Theorem to_prettier_order_onto (width height k : Z) :
  0 < height ->
  1 <= k <= width * height ->
  0 < width ->
  exists n,
    0 <= n < width * height /\
    to_prettier_order n width height = Returns k.
Proof.
  intros Hh Hk Hw.
  set (r := (k - 1) / width). set (c := (k - 1) mod width).
  pose proof (Z.div_mod (k - 1) width ltac:(lia)) as D. fold r c in D.
  pose proof (Z.mod_pos_bound (k - 1) width Hw) as C. fold c in C.
  assert (R : 0 <= r < height).
  { subst r. split; [apply Z.div_pos; lia|].
    apply Z.div_lt_upper_bound; lia. }
  exists (height * c + (height - 1 - r)).
  split; [nia|].
  assert (Hne : (height =? 0) = false) by (apply Z.eqb_neq; lia).
  unfold to_prettier_order, py_divmod. rewrite Hne.
  assert (Hq : (height * c + (height - 1 - r)) / height = c).
  { symmetry. apply (Z.div_unique_pos _ _ c (height - 1 - r)); lia. }
  assert (Hr : (height * c + (height - 1 - r)) mod height = height - 1 - r).
  { symmetry. apply (Z.mod_unique_pos _ _ c (height - 1 - r)); lia. }
  rewrite Hq, Hr. f_equal. lia.
Qed.

Lemma in_py_range (n x : Z) : In x (py_range n) <-> 0 <= x < n.
Proof.
  unfold py_range. rewrite in_map_iff. split.
  - intros (k & <- & Hk). apply in_seq in Hk. lia.
  - intros H. exists (Z.to_nat x). split; [lia|]. apply in_seq. lia.
Qed.

Lemma in_honeycomb_cells (nrow ncol j i a b : Z) :
  In (j, i, (a, b)) (honeycomb_cells nrow ncol) <->
  0 <= i < ncol /\ 0 <= j < nrow /\ honeycomb_slice i j = (a, b).
Proof.
  unfold honeycomb_cells. rewrite in_map_iff. split.
  - intros ([i' j'] & E & Hin). injection E as -> -> E.
    apply in_prod_iff in Hin. rewrite !in_py_range in Hin.
    destruct Hin as [Hi Hj]. split; [exact Hi|]. split; [exact Hj | exact E].
  - intros (Hi & Hj & E). exists (i, j). rewrite E. split; [reflexivity|].
    apply in_prod_iff. rewrite !in_py_range. split; assumption.
Qed.

(** X15: every panel of the honeycomb takes exactly two grid columns inside
    the [2 * ncol + 1] columns of the grid; panels of odd rows start one
    column (half a panel) to the right of those of even rows; and every entry
    [axes[j, i]] of the [nrow] by [ncol] array gets a panel. *)
Theorem honeycomb_cells_in_grid (nrow ncol : Z) :
  (forall j i a b,
     In (j, i, (a, b)) (honeycomb_cells nrow ncol) ->
     0 <= j < nrow /\ 0 <= i < ncol /\
     0 <= a /\ b = a + 2 /\ b <= 2 * ncol + 1 /\
     a = 2 * i + j mod 2) /\
  (forall j i,
     0 <= j < nrow -> 0 <= i < ncol ->
     exists a b, In (j, i, (a, b)) (honeycomb_cells nrow ncol)) /\
  List.length (honeycomb_cells nrow ncol)
  = (Z.to_nat ncol * Z.to_nat nrow)%nat.
Proof.
  split; [|split].
  - intros j i a b H. apply in_honeycomb_cells in H.
    destruct H as (Hi & Hj & E). unfold honeycomb_slice in E.
    pose proof (Z.mod_pos_bound j 2 ltac:(lia)) as Hm.
    destruct (Z.eqb_spec (j mod 2) 0) as [E0|E0];
      apply pair_equal_spec in E; destruct E as [<- <-]; lia.
  - intros j i Hj Hi. destruct (honeycomb_slice i j) as [a b] eqn:E.
    exists a, b. apply in_honeycomb_cells.
    split; [exact Hi|]. split; [exact Hj | exact E].
  - unfold honeycomb_cells, py_range.
    rewrite length_map, length_prod, !length_map, !length_seq. reflexivity.
Qed.

(** X16: two panels of the same row of the honeycomb never share a grid
    column. *)
Theorem honeycomb_cells_disjoint (nrow ncol j i i' a b a' b' : Z) :
  In (j, i, (a, b)) (honeycomb_cells nrow ncol) ->
  In (j, i', (a', b')) (honeycomb_cells nrow ncol) ->
  i <> i' ->
  b <= a' \/ b' <= a.
Proof.
  intros H H' Hne. apply in_honeycomb_cells in H, H'.
  destruct H as (_ & _ & E), H' as (_ & _ & E').
  unfold honeycomb_slice in E, E'.
  destruct (j mod 2 =? 0); apply pair_equal_spec in E, E';
    destruct E as [<- <-], E' as [<- <-]; lia.
Qed.

(** ** [make_boundary_path] *)

Lemma np_linspace_last (start stop : float) (num : Z) (pts : list float) :
  1 < num ->
  np_linspace start stop num = Ok pts ->
  nth_error pts (Z.to_nat (num - 1)) = Some stop.
Proof.
  intros Hnum H.
  destruct (np_linspace_length start stop num ltac:(lia)) as (pts' & H' & Hlen).
  rewrite H in H'. injection H' as <-.
  unfold np_linspace in H.
  assert (H0 : (num <? 0) = false) by (apply Z.ltb_ge; lia).
  assert (H1 : (1 <? num) = true) by (apply Z.ltb_lt; lia).
  rewrite H0, H1 in H. injection H as H.
  remember (map (fun v => PrimFloat.add v start) _) as y eqn:Hy in H.
  clear Hy. unfold set_last in H. destruct y as [|a y].
  - subst pts. simpl in Hlen. lia.
  - subst pts. rewrite length_app in Hlen.
    change (List.length [stop]) with 1%nat in Hlen.
    rewrite nth_error_app2 by lia.
    replace (Z.to_nat (num - 1) - List.length (removelast (a :: y)))%nat
      with 0%nat by lia.
    reflexivity.
Qed.

Lemma np_full_length {A : Type} (n : Z) (v : A) :
  List.length (np_full n v) = Z.to_nat n.
Proof. apply repeat_length. Qed.

Lemma combine_full_l (v : float) (ys : list float) (n : Z) (k : nat) (y : float) :
  List.length ys = Z.to_nat n ->
  nth_error ys k = Some y ->
  nth_error (combine (np_full n v) ys) k = Some (v, y).
Proof.
  unfold np_full. intros Hlen. rewrite <- Hlen. clear Hlen.
  revert k. induction ys as [|a ys IH]; intros k H.
  - destruct k; discriminate H.
  - destruct k as [|k]; simpl in *.
    + injection H as ->. reflexivity.
    + apply IH. exact H.
Qed.

Lemma combine_full_r (v : float) (xs : list float) (n : Z) (k : nat) (x : float) :
  List.length xs = Z.to_nat n ->
  nth_error xs k = Some x ->
  nth_error (combine xs (np_full n v)) k = Some (x, v).
Proof.
  unfold np_full. intros Hlen. rewrite <- Hlen. clear Hlen.
  revert k. induction xs as [|a xs IH]; intros k H.
  - destruct k; discriminate H.
  - destruct k as [|k]; simpl in *.
    + injection H as ->. reflexivity.
    + apply IH. exact H.
Qed.

Lemma combine_full_length_l (v : float) (ys : list float) (n : Z) :
  List.length ys = Z.to_nat n ->
  List.length (combine (np_full n v) ys) = Z.to_nat n.
Proof. intros H. rewrite length_combine, np_full_length, H. lia. Qed.

Lemma combine_full_length_r (v : float) (xs : list float) (n : Z) :
  List.length xs = Z.to_nat n ->
  List.length (combine xs (np_full n v)) = Z.to_nat n.
Proof. intros H. rewrite length_combine, np_full_length, H. lia. Qed.

(** X17: for [n >= 2] the boundary path has [4 * n] vertices and passes
    through the four corners of the box exactly, as the last vertex of each
    edge: (maxlon, maxlat), (maxlon, minlat), (minlon, minlat) and, last of
    all, (minlon, maxlat); a negative [n] raises [ValueError]. *)
Theorem make_boundary_path_corners (minlon maxlon minlat maxlat : float)
  (n : Z) :
  2 <= n ->
  (exists path,
     make_boundary_path minlon maxlon minlat maxlat n = Ok path /\
     List.length path = (4 * Z.to_nat n)%nat /\
     nth_error path (Z.to_nat n - 1) = Some (maxlon, maxlat) /\
     nth_error path (2 * Z.to_nat n - 1) = Some (maxlon, minlat) /\
     nth_error path (3 * Z.to_nat n - 1) = Some (minlon, minlat) /\
     nth_error path (4 * Z.to_nat n - 1) = Some (minlon, maxlat)) /\
  (forall k, k < 0 ->
     exists msg,
       make_boundary_path minlon maxlon minlat maxlat k
       = Raise (ValueError msg)).
Proof.
  intros Hn. split.
  - destruct (np_linspace_length minlon maxlon n ltac:(lia)) as (x1 & E1 & L1).
    destruct (np_linspace_length maxlat minlat n ltac:(lia)) as (y2 & E2 & L2).
    destruct (np_linspace_length maxlon minlon n ltac:(lia)) as (x3 & E3 & L3).
    destruct (np_linspace_length minlat maxlat n ltac:(lia)) as (y4 & E4 & L4).
    assert (H1n : 1 < n) by lia.
    pose proof (np_linspace_last _ _ _ _ H1n E1) as T1.
    pose proof (np_linspace_last _ _ _ _ H1n E2) as T2.
    pose proof (np_linspace_last _ _ _ _ H1n E3) as T3.
    pose proof (np_linspace_last _ _ _ _ H1n E4) as T4.
    replace (Z.to_nat (n - 1)) with (Z.to_nat n - 1)%nat in T1, T2, T3, T4 by lia.
    unfold make_boundary_path. rewrite E1, E2, E3, E4. cbn [bind].
    eexists. split; [reflexivity|].
    pose proof (combine_full_length_r maxlat x1 n L1) as N1.
    pose proof (combine_full_length_l maxlon y2 n L2) as N2.
    pose proof (combine_full_length_r minlat x3 n L3) as N3.
    pose proof (combine_full_length_l minlon y4 n L4) as N4.
    split; [rewrite !length_app, N1, N2, N3, N4; lia|].
    split; [|split; [|split]].
    + rewrite nth_error_app1 by lia. apply combine_full_r; assumption.
    + rewrite nth_error_app2 by lia. rewrite nth_error_app1 by lia.
      rewrite N1. replace (2 * Z.to_nat n - 1 - Z.to_nat n)%nat
        with (Z.to_nat n - 1)%nat by lia.
      apply combine_full_l; assumption.
    + rewrite nth_error_app2 by lia. rewrite nth_error_app2 by lia.
      rewrite nth_error_app1 by lia.
      rewrite N1, N2. replace (3 * Z.to_nat n - 1 - Z.to_nat n - Z.to_nat n)%nat
        with (Z.to_nat n - 1)%nat by lia.
      apply combine_full_r; assumption.
    + rewrite nth_error_app2 by lia. rewrite nth_error_app2 by lia.
      rewrite nth_error_app2 by lia.
      rewrite N1, N2, N3.
      replace (4 * Z.to_nat n - 1 - Z.to_nat n - Z.to_nat n - Z.to_nat n)%nat
        with (Z.to_nat n - 1)%nat by lia.
      apply combine_full_l; assumption.
  - intros k Hk. unfold make_boundary_path, np_linspace.
    assert (Hneg : (k <? 0) = true) by (apply Z.ltb_lt; exact Hk).
    rewrite Hneg. eexists. reflexivity.
Qed.

(** X18: every vertex of the boundary path lies on a side of the box: its
    latitude is exactly [maxlat] or [minlat], or its longitude is exactly
    [maxlon] or [minlon]. *)
Theorem make_boundary_path_on_sides (minlon maxlon minlat maxlat : float)
  (n : Z) (path : list point) (p : point) :
  make_boundary_path minlon maxlon minlat maxlat n = Ok path ->
  In p path ->
  snd p = maxlat \/ fst p = maxlon \/ snd p = minlat \/ fst p = minlon.
Proof.
  unfold make_boundary_path. intros H Hin.
  destruct (np_linspace minlon maxlon n) as [x1|]; [|discriminate H].
  cbn [bind] in H.
  destruct (np_linspace maxlat minlat n) as [y2|]; [|discriminate H].
  cbn [bind] in H.
  destruct (np_linspace maxlon minlon n) as [x3|]; [|discriminate H].
  cbn [bind] in H.
  destruct (np_linspace minlat maxlat n) as [y4|]; [|discriminate H].
  cbn [bind] in H. injection H as <-. destruct p as [x y].
  rewrite !in_app_iff in Hin.
  destruct Hin as [Hin|[Hin|[Hin|Hin]]].
  - apply in_combine_r in Hin. apply repeat_spec in Hin. auto.
  - apply in_combine_l in Hin. apply repeat_spec in Hin. auto.
  - apply in_combine_r in Hin. apply repeat_spec in Hin. auto.
  - apply in_combine_l in Hin. apply repeat_spec in Hin. auto.
Qed.

(** ** [setup_lon_lat] *)

(** X19: [setup_lon_lat] returns a supplied pair unchanged, even for an empty
    [to_plot]; when one of [lon] and [lat] is missing the other is discarded
    and both are read from the first item; and it raises [IndexError] when
    there is no item to read from, [AttributeError] when the first item lacks
    a coordinate. *)
Theorem setup_lon_lat_cases (to_plot : list PlotItem)
  (lon lat : option (list float)) :
  (forall lo la, setup_lon_lat to_plot (Some lo) (Some la) = Returns (lo, la)) /\
  (lon = None \/ lat = None ->
   setup_lon_lat to_plot lon lat = setup_lon_lat to_plot None None /\
   (to_plot = [] ->
    setup_lon_lat to_plot lon lat = Raises (Builtin IndexError)) /\
   (forall first rest,
      to_plot = first :: rest ->
      setup_lon_lat to_plot lon lat
      = match item_lon first, item_lat first with
        | Some lo, Some la => Returns (lo, la)
        | _, _ => Raises AttributeError
        end)).
Proof.
  split; [reflexivity|]. intros Hmiss.
  assert (E : setup_lon_lat to_plot lon lat = setup_lon_lat to_plot None None).
  { destruct Hmiss as [-> | ->]; [destruct lat | destruct lon]; reflexivity. }
  split; [exact E|]. rewrite E. split.
  - intros ->. reflexivity.
  - intros first rest ->. unfold setup_lon_lat. rewrite py_index_head.
    destruct (item_lon first), (item_lat first); reflexivity.
Qed.

(** ** [add_contour] and [setup_contourf] *)

Lemma create_levels_symmetric_inv (to_plot : list Field) (levels : levels_arg)
  (q : float) (lc lcf : list float) (ext : string) :
  create_levels to_plot levels q = Ok (lc, lcf, ext, Some 0) ->
  S (List.length lcf) = List.length lc.
Proof.
  intros H. apply create_levels_inv in H.
  destruct H as [(vals & rest & _ & E)|(vals & rest & _ & H)];
    [discriminate E|].
  apply inferred_inv in H. destruct H as (_ & _ & Hfill & _).
  apply fill_levels_inv in Hfill.
  destruct Hfill as [(_ & Hne & ->)|(Hbad & _)]; [|now elim Hbad].
  apply remove_nth_length. apply half_lt.
  destruct lc; simpl; [now elim Hne | lia].
Qed.

Lemma repeat_sum {A : Type} (x : A) (a b : nat) :
  repeat x a ++ repeat x b = repeat x (a + b).
Proof. symmetry. apply repeat_app. Qed.

Lemma doubleit_pair (a b default : string) (n : nat) :
  doubleit (ThingList [a; b]) (Z.of_nat n) default
  = Ok (repeat a (n / 2) ++ repeat default (Z.to_nat (Z.of_nat n mod 2))
          ++ repeat b (n / 2)).
Proof.
  unfold doubleit.
  change (List.length [a; b] =? 3)%nat with false.
  change (py_index [a; b] 0) with (Ok a).
  change (py_index [a; b] 1) with (Ok b).
  cbn [bind]. unfold py_repeat.
  rewrite Z.quot_div_nonneg by lia. rewrite half_index. reflexivity.
Qed.

(** X20: for a symmetric direction and no colours or line styles given,
    [add_contour] draws the fill levels, without the middle level, but styles
    them with lists made for the full levels: one colour and one line style
    more than there are levels drawn, black throughout, dashed for the first
    half (rounded down) and solid for the rest. *)
Theorem add_contour_symmetric_styles (to_plot : list PlotItem)
  (lon lat : option (list float)) (levels : levels_arg) (q : float)
  (lo la lc lcf : list float) (ext : string) :
  setup_lon_lat to_plot lon lat = Returns (lo, la) ->
  create_levels (map item_field to_plot) levels q = Ok (lc, lcf, ext, Some 0) ->
  add_contour_setup to_plot lon lat levels ThingOther ThingOther q false
  = Returns
      (lo, la, lcf,
       ThingList (repeat "black" (List.length lc)),
       ThingList (repeat "dashed" (List.length lc / 2)
                    ++ repeat "solid" (List.length lc - List.length lc / 2))) /\
  List.length lc = S (List.length lcf).
Proof.
  intros Hll Hcl.
  split; [|symmetry; apply (create_levels_symmetric_inv _ _ _ _ _ _ Hcl)].
  unfold add_contour_setup. rewrite Hll, Hcl. cbn [bind].
  unfold contour_styles.
  change (direction_is (Some 0) 0) with true.
  change (is_none ThingOther) with true.
  cbn [andb negb].
  set (n := List.length lc).
  rewrite doubleit_pair.
  change (doubleit ThingOther (Z.of_nat n) "black")
    with (Ok (py_repeat (Z.of_nat n) "black")).
  cbn [bind lift]. unfold py_repeat. rewrite Nat2Z.id.
  pose proof (Z.div_mod (Z.of_nat n) 2 ltac:(lia)) as Hdm.
  pose proof (Z.mod_pos_bound (Z.of_nat n) 2 ltac:(lia)) as Hm.
  pose proof (half_index n) as Hhalf.
  assert (Hrest : (Z.to_nat (Z.of_nat n mod 2) + n / 2 = n - n / 2)%nat) by lia.
  rewrite repeat_sum, Hrest. reflexivity.
Qed.

Lemma make_transparent_obj_length (cm : Colormap) (nlev : Z)
  (alpha_others : float) (n_transparent direction : Z) (cl : list RGBA) :
  make_transparent (CmapObj cm) (Some nlev) alpha_others n_transparent direction
  = Ok cl ->
  Z.of_nat (List.length cl) = nlev + (if direction =? 0 then 1 else 0).
Proof.
  unfold make_transparent. cbn [resolve_cmap bind]. intros H.
  destruct (np_linspace _ _ _) as [pts|] eqn:Hpts; [|discriminate H].
  cbn [bind] in H.
  assert (Hlen : Z.of_nat (List.length pts)
                 = nlev + (if direction =? 0 then 1 else 0)).
  { unfold np_linspace in Hpts.
    destruct (Z.ltb_spec (nlev + (if direction =? 0 then 1 else 0)) 0) as [|Hge];
      [discriminate Hpts|].
    destruct (np_linspace_length 0%float 1%float _ Hge) as (pts' & E & L).
    unfold np_linspace in E.
    destruct (Z.ltb_spec (nlev + (if direction =? 0 then 1 else 0)) 0); [lia|].
    rewrite Hpts in E. injection E as <-. lia. }
  destruct (direction =? 0); [|destruct (direction =? 1)];
    injection H as <-; rewrite !assign_alpha_length, length_map; exact Hlen.
Qed.

(** X21: with clipping ([q < 1]), the transparent colormap [setup_contourf]
    builds has one colour per fill level, and one more exactly when the
    extend policy is "both". *)
Theorem setup_contourf_palette_size (to_plot : list Field)
  (levels : levels_arg) (cmap : cmap_arg) (transparify : transparify_arg)
  (q : float) (lcf : list float) (ext : string) (colors : list RGBA) :
  PrimFloat.ltb q 1%float = true ->
  setup_contourf_palette to_plot levels cmap transparify q
  = Ok (lcf, ext, PaletteListed colors) ->
  List.length colors
  = (List.length lcf + (if String.eqb ext "both" then 1 else 0))%nat.
Proof.
  intros Hq H. unfold setup_contourf_palette in H.
  destruct (create_levels to_plot levels q) as [[[[lc lcf'] ext'] d]|] eqn:Hcl;
    [|discriminate H].
  cbn [bind] in H.
  destruct (resolve_cmap cmap) as [cm|]; [|discriminate H]. cbn [bind] in H.
  assert (Hd : (direction_code d =? 0) = String.eqb ext' "both").
  { apply create_levels_inv in Hcl.
    destruct Hcl as [(vals & rest & _ & E)|(vals & rest & _ & Hinf)].
    - injection E as _ _ -> ->. reflexivity.
    - apply inferred_inv in Hinf. destruct Hinf as (_ & He & _ & _).
      rewrite Hq in He.
      destruct d as [[|[p|p|]|[p|p|]]|]; try discriminate He;
        injection He as <-; reflexivity. }
  assert (Hlisted : forall a n l,
             make_transparent (CmapObj cm) (Some (Z.of_nat (List.length lcf')))
               a n (direction_code d) = Ok l ->
             List.length l
             = (List.length lcf' + (if String.eqb ext' "both" then 1 else 0))%nat).
  { intros a n l Hl. apply make_transparent_obj_length in Hl.
    rewrite Hd in Hl. destruct (String.eqb ext' "both"); lia. }
  destruct transparify as [[|]|n|a|[|]]; cbn [bind] in H;
    try discriminate H;
    repeat match type of H with
           | context [if ?b then _ else _] => destruct b
           end;
    try discriminate H;
    match type of H with
    | context [make_transparent ?c ?nl ?a ?n ?dd] =>
        destruct (make_transparent c nl a n dd) as [l|] eqn:Hl;
          [|discriminate H]
    end;
    cbn [bind] in H; injection H as <- <- <-; apply (Hlisted _ _ _ Hl).
Qed.

(** ** [cluster_on_fig]: palettes and layouts *)

Lemma insert_unique_in (z x : Z) (l : list Z) :
  In x (insert_unique z l) <-> x = z \/ In x l.
Proof.
  induction l as [|a l IH]; simpl.
  - split; [intros [H|[]]; left; congruence | intros [H|[]]; left; congruence].
  - destruct (Z.ltb_spec z a).
    + simpl. split; [intros [H1|H1]; [left; congruence | right; exact H1]
                    |intros [H1|H1]; [left; congruence | right; exact H1]].
    + destruct (Z.eqb_spec z a) as [->|Hne]; simpl.
      * split; [intros H1; right; exact H1|].
        intros [->|H1]; [left; reflexivity | exact H1].
      * rewrite IH. split.
        -- intros [H1|[H1|H1]]; [right; left; exact H1 | left; exact H1
                                 | right; right; exact H1].
        -- intros [H1|[H1|H1]]; [right; left; exact H1 | left; exact H1
                                 | right; right; exact H1].
Qed.

Lemma insert_unique_sorted (z : Z) (l : list Z) :
  Sorted.StronglySorted Z.lt l -> Sorted.StronglySorted Z.lt (insert_unique z l).
Proof.
  induction 1 as [|a l Hs IH Hall]; simpl.
  - repeat constructor.
  - destruct (Z.ltb_spec z a).
    + constructor; [constructor; assumption|].
      constructor; [assumption|].
      eapply Forall_impl; [|exact Hall]. intros; lia.
    + destruct (Z.eqb_spec z a); [constructor; assumption|].
      constructor; [exact IH|].
      apply Forall_forall. intros x Hx. apply insert_unique_in in Hx.
      destruct Hx as [->|Hx]; [lia|].
      rewrite Forall_forall in Hall. now apply Hall.
Qed.

(** [np.unique] gives the labels in strictly increasing order. *)
Lemma np_unique_sorted (l : list Z) : Sorted.StronglySorted Z.lt (np_unique l).
Proof.
  induction l as [|z l IH]; simpl; [constructor|].
  now apply insert_unique_sorted.
Qed.

Lemma sorted_label_count (u : list Z) :
  Sorted.StronglySorted Z.lt u ->
  Z.of_nat (List.length u)
  = count_if (fun l => l <? 0) u
    + (if existsb (fun l => l =? 0) u then 1 else 0)
    + count_if (fun l => 0 <? l) u.
Proof.
  unfold count_if. induction 1 as [|a u Hs IH Hall]; [reflexivity|].
  cbn [List.length filter existsb].
  rewrite Nat2Z.inj_succ, IH.
  destruct (Z.ltb_spec a 0), (Z.eqb_spec a 0), (Z.ltb_spec 0 a); try lia;
    cbn [orb List.length]; rewrite ?Nat2Z.inj_succ; try lia.
  assert (Hno : existsb (fun l => l =? 0) u = false).
  { apply Bool.not_true_is_false. intros Hex.
    apply existsb_exists in Hex. destruct Hex as (x & Hx & Ex).
    apply Z.eqb_eq in Ex. rewrite Forall_forall in Hall.
    specialize (Hall x Hx). lia. }
  rewrite Hno. lia.
Qed.

Lemma count_if_nonneg (p : Z -> bool) (l : list Z) : 0 <= count_if p l.
Proof. unfold count_if. lia. Qed.

Lemma count_if_none (p : Z -> bool) (l : list Z) :
  existsb p l = false -> count_if p l = 0.
Proof.
  unfold count_if. intros H. rewrite filter_none; [reflexivity|].
  intros x Hx. apply Bool.not_true_is_false. intros Hp.
  assert (Hex : existsb p l = true) by (apply existsb_exists; eauto).
  congruence.
Qed.

(** A palette sampled from a colormap has one colour per unique label. *)
Lemma cluster_colors_length (labs : list Z) (cmap : cluster_cmap)
  (colors : list color) :
  (forall l, cmap <> ClusterCmapList l) ->
  cluster_colors (np_unique labs) cmap = Ok colors ->
  List.length colors = List.length (np_unique labs).
Proof.
  intros Hnot H. pose proof (sorted_label_count _ (np_unique_sorted labs)) as Hc.
  set (u := np_unique labs) in *.
  assert (Hsample : forall cm cs,
             (if existsb (fun l => l <? 0) u then
                cab <- np_linspace 1%float 0.66%float (count_if (fun l => 0 <? l) u) ;;
                cbe <- np_linspace 0.33%float 0%float (count_if (fun l => l <? 0) u) ;;
                Ok (map (fun v => ColorRGBA (cmap_rgba cm v))
                      (cbe ++ (if existsb (fun l => l =? 0) u then [0.5%float] else [])
                           ++ cab))
              else
                cs' <- np_linspace 1.0%float 0.33%float (count_if (fun l => 0 <? l) u) ;;
                Ok (map (fun v => ColorRGBA (cmap_rgba cm v))
                      ((if existsb (fun l => l =? 0) u then [0.0%float] else [])
                         ++ cs'))) = Ok cs ->
             List.length cs = List.length u).
  { intros cm cs Hs.
    destruct (np_linspace_length 1%float 0.66%float _
                (count_if_nonneg (fun l => 0 <? l) u)) as (cab & Ecab & Lcab).
    destruct (np_linspace_length 0.33%float 0%float _
                (count_if_nonneg (fun l => l <? 0) u)) as (cbe & Ecbe & Lcbe).
    destruct (np_linspace_length 1.0%float 0.33%float _
                (count_if_nonneg (fun l => 0 <? l) u)) as (cs' & Ecs & Lcs).
    pose proof (count_if_nonneg (fun l => 0 <? l) u) as Pa.
    pose proof (count_if_nonneg (fun l => l <? 0) u) as Pb.
    destruct (existsb (fun l => l <? 0) u) eqn:Hsym.
    - rewrite Ecab, Ecbe in Hs. cbn [bind] in Hs. injection Hs as <-.
      rewrite length_map, !length_app, Lcab, Lcbe.
      destruct (existsb (fun l => l =? 0) u); simpl List.length; lia.
    - rewrite Ecs in Hs. cbn [bind] in Hs. injection Hs as <-.
      rewrite (count_if_none _ _ Hsym) in Hc.
      rewrite length_map, !length_app, Lcs.
      destruct (existsb (fun l => l =? 0) u); simpl List.length; lia. }
  unfold cluster_colors in H. fold u in H.
  destruct cmap as [|name|cm|l].
  - destruct (mpl_colormaps _) as [cm|]; [|discriminate H].
    apply (Hsample cm colors H).
  - destruct (mpl_colormaps name) as [cm|]; [|discriminate H].
    apply (Hsample cm colors H).
  - apply (Hsample cm colors H).
  - now elim (Hnot l).
Qed.

Lemma py_index_nat_out {A : Type} (l : list A) (k : nat) :
  (List.length l <= k)%nat -> py_index l (Z.of_nat k) = Raise IndexError.
Proof.
  intros H. unfold py_index.
  assert (H0 : (Z.of_nat k <? 0) = false) by (apply Z.ltb_ge; lia).
  rewrite H0.
  assert (H1 : (Z.of_nat k <? Z.of_nat (List.length l)) = false)
    by (apply Z.ltb_ge; lia).
  rewrite H1, andb_false_r. reflexivity.
Qed.

Lemma label_patches_ok (colors : list color) (rc : list point)
  (labs : list Z) (x y : list float) (i : nat) (lab : Z) :
  (lab = 0 \/ (i < List.length colors)%nat) ->
  exists ps, label_patches colors rc labs x y i lab = Ok ps.
Proof.
  intros H. unfold label_patches. destruct (Z.eqb_spec lab 0) as [E|E].
  - eexists. reflexivity.
  - destruct H as [H|H]; [now elim E|].
    destruct (nth_error colors i) as [c|] eqn:Hc.
    + rewrite (py_index_nat _ _ _ Hc). cbn [bind]. eexists. reflexivity.
    + apply nth_error_None in Hc. lia.
Qed.

Lemma label_patches_raise (colors : list color) (rc : list point)
  (labs : list Z) (x y : list float) (i : nat) (lab : Z) :
  lab <> 0 -> (List.length colors <= i)%nat ->
  label_patches colors rc labs x y i lab = Raise IndexError.
Proof.
  intros Hlab H. unfold label_patches.
  destruct (Z.eqb_spec lab 0) as [E|_]; [now elim Hlab|].
  rewrite py_index_nat_out by assumption. reflexivity.
Qed.

Lemma label_loop_ok (colors : list color) (rc : list point) (tl : list Z)
  (x y : list float) (labs : list Z) (i : nat) :
  (forall j lab, nth_error labs j = Some lab -> lab <> 0 ->
                 (i + j < List.length colors)%nat) ->
  snd (label_loop colors rc tl x y i labs) = Ok tt.
Proof.
  revert i. induction labs as [|lab labs IH]; intros i H; [reflexivity|].
  cbn [label_loop].
  destruct (label_patches_ok colors rc tl x y i lab) as [ps Hps].
  { destruct (Z.eq_dec lab 0) as [E|E]; [now left|right].
    specialize (H 0%nat lab eq_refl E). lia. }
  rewrite Hps.
  destruct (label_loop colors rc tl x y (S i) labs) as [more r] eqn:Hmore.
  cbn [snd]. specialize (IH (S i)). rewrite Hmore in IH. apply IH.
  intros j lab' Hj Hlab'. specialize (H (S j) lab' Hj Hlab'). lia.
Qed.

Lemma label_loop_raise (colors : list color) (rc : list point) (tl : list Z)
  (x y : list float) (labs : list Z) (i j : nat) (lab : Z) :
  nth_error labs j = Some lab -> lab <> 0 ->
  (List.length colors <= i + j)%nat ->
  snd (label_loop colors rc tl x y i labs) = Raise IndexError.
Proof.
  revert i j. induction labs as [|a labs IH]; intros i j Hj Hlab Hlen.
  - destruct j; discriminate Hj.
  - cbn [label_loop].
    destruct (label_patches colors rc tl x y i a) as [ps|e] eqn:Hps.
    + destruct (label_loop colors rc tl x y (S i) labs) as [more r] eqn:Hmore.
      cbn [snd]. destruct j as [|j].
      * injection Hj as ->. rewrite Nat.add_0_r in Hlen.
        rewrite (label_patches_raise _ _ _ _ _ _ _ Hlab Hlen) in Hps.
        discriminate Hps.
      * specialize (IH (S i) j Hj Hlab ltac:(lia)). rewrite Hmore in IH.
        exact IH.
    + cbn [snd]. unfold label_patches in Hps.
      destruct (a =? 0); [discriminate Hps|].
      destruct (py_index colors (Z.of_nat i)) eqn:Hpi; [discriminate Hps|].
      cbn [bind] in Hps. injection Hps as <-.
      unfold py_index in Hpi.
      repeat match type of Hpi with
             | context [if ?b then _ else _] => destruct b
             | context [match ?o with Some _ => _ | None => _ end] => destruct o
             end; congruence.
Qed.

(** X22: when the palette is sampled from a colormap (the default, a name or
    a colormap object), it has exactly one colour per unique label, so once
    the set-up of [cluster_on_fig] succeeds the loop over the labels runs to
    the end: no label is left without a colour. *)
Theorem cluster_on_fig_colormap_completes (self : Clusterplot)
  (coords : list point) (clu_labs : list Z) (cmap : cluster_cmap)
  (colors : list color) (rc : list point) (tl : list Z) (x y : list float) :
  (forall l, cmap <> ClusterCmapList l) ->
  cluster_setup self coords clu_labs cmap = Ok (colors, rc, tl, x, y) ->
  List.length colors = List.length (np_unique clu_labs) /\
  snd (cluster_on_fig self coords clu_labs cmap) = Ok tt.
Proof.
  intros Hnot Hsetup.
  assert (Hlen : List.length colors = List.length (np_unique clu_labs)).
  { unfold cluster_setup in Hsetup.
    destruct (cluster_colors (np_unique clu_labs) cmap) as [cs|] eqn:Hcs;
      [|discriminate Hsetup].
    cbn [bind] in Hsetup.
    assert (E : cs = colors).
    { repeat match type of Hsetup with
             | context [bind ?m _] =>
                 destruct m as [?|?]; [|discriminate Hsetup];
                 cbn [bind] in Hsetup
             | context [let '(_, _) := ?p in _] => destruct p
             end.
      now injection Hsetup. }
    subst cs. apply (cluster_colors_length _ _ _ Hnot Hcs). }
  split; [exact Hlen|].
  unfold cluster_on_fig. rewrite Hsetup. apply label_loop_ok.
  intros j lab Hj _. rewrite Hlen. simpl.
  apply nth_error_Some. congruence.
Qed.

(** X23: a colour list is indexed by the rank of a label among all the
    unique labels, label 0 included: when a non-zero label has a rank beyond
    the list, [cluster_on_fig] ends in [IndexError]. *)
Theorem cluster_on_fig_short_color_list (self : Clusterplot)
  (coords : list point) (clu_labs : list Z) (user_colors : list color)
  (colors : list color) (rc : list point) (tl : list Z) (x y : list float)
  (i : nat) (lab : Z) :
  cluster_setup self coords clu_labs (ClusterCmapList user_colors)
  = Ok (colors, rc, tl, x, y) ->
  nth_error (np_unique clu_labs) i = Some lab ->
  lab <> 0 ->
  (List.length user_colors <= i)%nat ->
  colors = user_colors /\
  snd (cluster_on_fig self coords clu_labs (ClusterCmapList user_colors))
  = Raise IndexError.
Proof.
  intros Hsetup Hi Hlab Hlen.
  assert (E : colors = user_colors).
  { unfold cluster_setup in Hsetup. cbn [cluster_colors bind] in Hsetup.
    repeat match type of Hsetup with
           | context [bind ?m _] =>
               destruct m as [?|?]; [|discriminate Hsetup];
               cbn [bind] in Hsetup
           | context [let '(_, _) := ?p in _] => destruct p
           end.
    now injection Hsetup. }
  split; [exact E|]. subst colors.
  unfold cluster_on_fig. rewrite Hsetup.
  apply (label_loop_raise _ _ _ _ _ _ 0 i lab Hi Hlab). simpl. exact Hlen.
Qed.

(** X24: the spacings are read from [coords[nrow]] and [coords[2]], so with
    fewer than three layout points, or no more than [nrow] of them,
    [cluster_on_fig] raises and adds nothing to the figure. *)
Theorem cluster_on_fig_too_few_points (self : Clusterplot)
  (coords : list point) (clu_labs : list Z) (cmap : cluster_cmap) :
  (List.length coords < 3)%nat
  \/ 0 <= cp_nrow self /\ Z.of_nat (List.length coords) <= cp_nrow self ->
  panel_spacing (cp_nrow self) coords = Raise IndexError /\
  exists e, cluster_on_fig self coords clu_labs cmap = ([], Raise e).
Proof.
  intros H.
  assert (Hsp : panel_spacing (cp_nrow self) coords = Raise IndexError).
  { unfold panel_spacing.
    destruct (py_index coords (cp_nrow self)) as [cn|e] eqn:Hn.
    - cbn [bind].
      destruct (py_index coords 0) as [c0|e0] eqn:H0.
      + cbn [bind].
        assert (H2 : py_index coords 2 = Raise IndexError).
        { destruct H as [H|[Hnr Hle]].
          - apply (py_index_nat_out coords 2). lia.
          - exfalso. unfold py_index in Hn.
            destruct (Z.ltb_spec (cp_nrow self) 0); [lia|].
            destruct (Z.ltb_spec (cp_nrow self) (Z.of_nat (List.length coords)));
              [lia|].
            rewrite andb_false_r in Hn. discriminate Hn. }
        rewrite H2. reflexivity.
      + cbn [bind]. destruct coords; [|rewrite py_index_head in H0; discriminate H0].
        rewrite py_index_nil in Hn. discriminate Hn.
    - cbn [bind]. unfold py_index in Hn.
      repeat match type of Hn with
             | context [if ?b then _ else _] => destruct b
             | context [match ?o with Some _ => _ | None => _ end] => destruct o
             end; congruence. }
  split; [exact Hsp|].
  unfold cluster_on_fig, cluster_setup, tile_cloud. rewrite Hsp.
  repeat match goal with
         | |- context [bind ?m _] =>
             destruct m as [?|?]; cbn [bind];
             [|eexists; reflexivity]
         end.
  eexists. reflexivity.
Qed.

(** ** Groups that have members *)

Lemma for_each_length {A B : Type} (f : A -> result B) (l : list A)
  (ys : list B) :
  for_each f l = Ok ys -> List.length ys = List.length l.
Proof.
  revert ys. induction l as [|a l IH]; intros ys H; simpl in H.
  - injection H as <-. reflexivity.
  - destruct (f a) as [b|]; [|discriminate H]. cbn [bind] in H.
    destruct (for_each f l) as [bs|]; [|discriminate H]. cbn [bind] in H.
    injection H as <-. simpl. now rewrite (IH bs).
Qed.

(** X25: the fields [add_stippling] and [add_any_contour_from_mask] prepare
    are one per group, in the order of the groups; a group with a member gets
    the selection of its time steps ([isel] along "time", respectively the
    mean over the selected steps), never a placeholder. *)
Theorem group_with_members_selected (da : DataArray) (mask : Mask) (g : nat)
  (mas : list bool) :
  nth_error mask g = Some mas ->
  1 <= np_sum mas ->
  (forall to_test,
     stippling_to_test da mask = Ok to_test ->
     List.length to_test = List.length mask /\
     exists sel, isel da "time" mas = Ok sel /\ nth_error to_test g = Some sel) /\
  (forall to_plot,
     contour_to_plot da mask = Ok to_plot ->
     List.length to_plot = List.length mask /\
     exists time_name sel avg,
       time_name_of da = Ok time_name /\
       isel da time_name mas = Ok sel /\
       mean_dim sel time_name = Ok avg /\
       nth_error to_plot g = Some avg).
Proof.
  intros Hg Hsum.
  assert (Hge : (np_sum mas <? 1) = false) by (apply Z.ltb_ge; exact Hsum).
  split.
  - intros to_test H. split; [apply (for_each_length _ _ _ H)|].
    destruct (for_each_nth _ _ _ _ _ H Hg) as (y & Hy & Hnth).
    unfold stippling_group in Hy. rewrite Hge in Hy. exists y. now split.
  - intros to_plot H. unfold contour_to_plot in H.
    destruct (time_name_of da) as [tn|]; [|discriminate H]. cbn [bind] in H.
    split; [apply (for_each_length _ _ _ H)|].
    destruct (for_each_nth _ _ _ _ _ H Hg) as (y & Hy & Hnth).
    unfold contour_group in Hy. rewrite Hge in Hy.
    destruct (isel da tn mas) as [sel|] eqn:Hsel; [|discriminate Hy].
    cbn [bind] in Hy. exists tn, sel, y. repeat split; assumption.
Qed.

(** ** [p_to_tex] *)



End Plots.

(** * The properties on concrete inputs *)

(** C5 on a three-colour override and length 5. *)
Lemma doubleit_three_elements_witness :
  0 <= 5 /\
  exists out,
    doubleit (ThingList ["red"; "grey"; "blue"]) 5 "black" = Ok out /\
    out = ["red"; "red"; "grey"; "blue"; "blue"] /\
    Z.of_nat (List.length out) = 5.
Proof.
  split; [lia|].
  apply (doubleit_three_elements "red" "grey" "blue" "black" 5). lia.
Defined.

Example doubleit_two_elements :
  doubleit (ThingList ["dashed"; "solid"]) 7 "solid"
  = Ok ["dashed"; "dashed"; "dashed"; "solid"; "solid"; "solid"; "solid"].
Proof. reflexivity. Qed.

(** C1 as the specification words it does not hold: a boolean field is
    answered with the direction flag 1, not with the symmetric flag 0, even
    when the direction oracle would say 0. *)
Lemma create_levels_boolean_counterexample :
  create_levels (const_direction (Some 0)) (const_quantile 0 1) (const_ticks [])
    [masks_field] LevelsNone 0.99%float
  <> Ok ([0; 0.5; 1]%float, [0; 0.5; 1]%float, "neither", Some 0).
Proof. intros H. vm_compute in H. discriminate H. Qed.

(** C1 (as amended) on two boolean fields, explicit levels and [q = 0.5]. *)
Lemma create_levels_boolean_witness :
  Forall (fun f => field_dtype f = dt_bool) [masks_field; masks_field] /\
  [masks_field; masks_field] <> [] /\
  create_levels (const_direction (Some 0)) (const_quantile 0 1) (const_ticks [])
    [masks_field; masks_field] (LevelsSeq [1; 2; 3]%float) 0.5%float
  = Ok ([0; 0.5; 1]%float, [0; 0.5; 1]%float, "neither", Some 1).
Proof.
  assert (Hall : Forall (fun f => field_dtype f = dt_bool)
                   [masks_field; masks_field])
    by (repeat constructor).
  assert (Hne : [masks_field; masks_field] <> []) by discriminate.
  split; [exact Hall|]. split; [exact Hne|].
  exact (proj1 (create_levels_boolean (const_direction (Some 0))
                  (const_quantile 0 1) (const_ticks []) _
                  (LevelsSeq [1; 2; 3]%float) 0.5%float Hall) Hne).
Defined.

(** C3 on five explicit levels: the middle one, 0, is left out of the fill
    levels. *)
Lemma create_levels_symmetric_fill_witness :
  field_dtype anomaly_field <> dt_bool /\
  const_direction (Some 0) [anomaly_field] = Some 0 /\
  [-2; -1; 0; 1; 2]%float <> [] /\
  exists ext,
    create_levels (const_direction (Some 0)) (const_quantile (-1) 1)
      (const_ticks [-1; 0; 1]%float) [anomaly_field]
      (LevelsSeq [-2; -1; 0; 1; 2]%float) 0.99%float
    = Ok ([-2; -1; 0; 1; 2]%float, [-2; -1; 1; 2]%float, ext, Some 0).
Proof.
  assert (Hf : field_dtype anomaly_field <> dt_bool) by discriminate.
  assert (Hne : [-2; -1; 0; 1; 2]%float <> []) by discriminate.
  split; [exact Hf|]. split; [reflexivity|]. split; [exact Hne|].
  exact (proj1 (create_levels_symmetric_fill (const_direction (Some 0))
                  (const_quantile (-1) 1) (const_ticks [-1; 0; 1]%float)
                  anomaly_field [] 0.99%float Hf eq_refl) _ Hne).
Defined.

Example create_levels_generated_symmetric :
  create_levels (const_direction (Some 0)) (const_quantile (-1) 1)
    (const_ticks [-1; -0.5; 0; 0.5; 1]%float) [anomaly_field] LevelsNone
    0.99%float
  = Ok ([-1; -0.5; 0; 0.5; 1]%float, [-1; -0.5; 0.5; 1]%float, "both", Some 0).
Proof. reflexivity. Qed.

(** C9 on a field inferred as negative-only. *)
Lemma create_levels_q1_neither_witness :
  field_dtype anomaly_field <> dt_bool /\
  [1; 2]%float <> [] /\
  exists lcf,
    create_levels (const_direction (Some (-1))) (const_quantile (-1) 1)
      (const_ticks []) [anomaly_field] (LevelsSeq [1; 2]%float) 1%float
    = Ok ([1; 2]%float, lcf, "neither", Some (-1)).
Proof.
  assert (Hf : field_dtype anomaly_field <> dt_bool) by discriminate.
  assert (Hne : [1; 2]%float <> []) by discriminate.
  split; [exact Hf|]. split; [exact Hne|].
  exact (proj2 (create_levels_q1_neither (const_direction (Some (-1)))
                  (const_quantile (-1) 1) (const_ticks []) anomaly_field []
                  Hf) _ Hne).
Defined.

Example create_levels_later_boolean_ignored :
  create_levels (const_direction (Some (-1))) (const_quantile (-1) 0)
    (const_ticks [-1; -0.5; 0]%float) [anomaly_field; masks_field] LevelsNone
    0.99%float
  = Ok ([-1; -0.5; 0]%float, [-1; -0.5; 0]%float, "min", Some (-1)).
Proof. reflexivity. Qed.

Example create_levels_later_continuous_ignored :
  create_levels (const_direction (Some (-1))) (const_quantile (-1) 0)
    (const_ticks [-1; -0.5; 0]%float) [masks_field; anomaly_field] LevelsNone
    0.99%float
  = Ok (bool_levels, bool_levels, "neither", Some 1).
Proof. reflexivity. Qed.

(** C2 as the specification words it does not hold: with [nlev = 4],
    [n_transparent = 2] and direction 0 three entries are transparent, not
    two. *)
Lemma make_transparent_counterexample :
  exists colorlist,
    make_transparent no_registry (CmapObj grey_cmap) (Some 4) 1%float 2 0
    = Ok colorlist /\
    map rgba_a colorlist = [1; 0; 0; 0; 1]%float /\
    List.length (filter (fun c => PrimFloat.eqb (rgba_a c) 0%float) colorlist)
    = 3%nat /\
    3%nat <> Z.to_nat 2.
Proof.
  eexists. split; [vm_compute; reflexivity|].
  split; [reflexivity|]. split; [reflexivity|]. discriminate.
Qed.

(** C2 (as amended) on six levels, two transparent, direction 0. *)
Lemma make_transparent_band_witness :
  1 <= 6 /\ 1 <= 2 <= 6 /\ (0 = 0 -> 2 <= ceil_half 6) /\
  exists colorlist,
    make_transparent no_registry (CmapObj grey_cmap) (Some 6) 0.5%float 2 0
    = Ok colorlist /\
    Z.of_nat (List.length colorlist) = 6 + 1 /\
    (forall k c, nth_error colorlist k = Some c ->
       rgba_a c
       = if transparent_band 0 6 2 (Z.of_nat k) then 0%float else 0.5%float) /\
    Z.of_nat
      (List.length
         (filter (fun k => transparent_band 0 6 2 (Z.of_nat k))
            (seq 0 (List.length colorlist))))
    = 2 * 2 - 1.
Proof.
  assert (H1 : 1 <= 6) by lia.
  assert (H2 : 1 <= 2 <= 6) by lia.
  assert (H3 : 0 = 0 -> 2 <= ceil_half 6) by (intros _; vm_compute; discriminate).
  split; [exact H1|]. split; [exact H2|]. split; [exact H3|].
  exact (make_transparent_band no_registry grey_cmap 6 2 0.5%float 0 H1 H2
           (or_intror (or_introl eq_refl)) H3).
Defined.

Example make_transparent_lowest :
  option_map (map rgba_a)
    match make_transparent no_registry (CmapObj grey_cmap) (Some 4) 0.5%float 2 1
    with Ok l => Some l | Raise _ => None end
  = Some [0; 0; 0.5; 0.5]%float.
Proof. reflexivity. Qed.

Example make_transparent_highest :
  option_map (map rgba_a)
    match make_transparent no_registry (CmapObj grey_cmap) (Some 4) 0.5%float 2 (-1)
    with Ok l => Some l | Raise _ => None end
  = Some [0.5; 0.5; 0; 0]%float.
Proof. reflexivity. Qed.

(** C7 as the specification words it does not hold: over data with no time
    step, the only column of the mask has no set member, yet no placeholder
    is substituted and both preparations raise. *)
Lemma empty_group_counterexample :
  np_sum [] < 1 /\
  stippling_to_test keep_isel empty_series [[]]
  = Raise (ValueError "Data shape must match shape of object") /\
  contour_to_plot keep_isel keep_mean empty_series [[]] = Raise IndexError.
Proof. split; [reflexivity|]. split; reflexivity. Qed.

(** C7 (as amended) on two time steps and a first group without members. *)
Lemma empty_group_placeholder_witness :
  da_shape two_steps = [2; 1; 2]%nat /\
  nth_error [[false; false]; [true; false]] 0 = Some [false; false] /\
  np_sum [false; false] < 1 /\
  stippling_group keep_isel two_steps [false; false]
  = Ok (mkDa ["time"; "lat"; "lon"] (mkNd [1; 1; 2]%nat [0; 0]%float)) /\
  (forall time_name,
     contour_group keep_isel keep_mean two_steps time_name [false; false]
     = Ok (mkDa ["lat"; "lon"] (mkNd [1; 2]%nat [0; 0]%float))).
Proof.
  assert (Hs : da_shape two_steps = [2; 1; 2]%nat) by reflexivity.
  assert (Hg : nth_error [[false; false]; [true; false]] 0 = Some [false; false])
    by reflexivity.
  assert (Hm : np_sum [false; false] < 1) by reflexivity.
  split; [exact Hs|]. split; [exact Hg|]. split; [exact Hm|].
  pose proof (empty_group_placeholder keep_isel keep_mean two_steps 1 [1; 2]%nat
                [[false; false]; [true; false]] 0 [false; false] Hs Hg Hm) as H.
  split; [exact (proj1 H) | exact (proj1 (proj2 H))].
Defined.

(** C8 as the specification words it does not hold: with an unknown [type]
    the call below ends in the [IndexError] of the preparation of the groups,
    not in the [ValueError] about the type. *)
Lemma unknown_type_counterexample :
  ~ In "bogus" allowed_types /\
  add_any_contour_from_mask keep_isel keep_mean (list string) unit unit
    log_contourf log_contour log_stippling simple_repr empty_series [[]]
    "bogus" (StipplingBool false) tt []
  = ([], Raise IndexError).
Proof.
  split; [|reflexivity].
  intros [H|[H|[H|[]]]]; discriminate H.
Qed.

(** C8 (as amended) on a call whose groups are prepared without error:
    nothing is logged on the figure. *)
Lemma unknown_type_rejected_witness :
  ~ In "bogus" allowed_types /\
  add_any_contour_from_mask keep_isel keep_mean (list string) unit unit
    log_contourf log_contour log_stippling simple_repr two_steps
    [[false; false]; [true; false]] "bogus" (StipplingBool true) tt []
  = ([], Raise (ValueError (wrong_type_message simple_repr "bogus"))).
Proof.
  assert (Hnot : ~ In "bogus" allowed_types)
    by (intros [H|[H|[H|[]]]]; discriminate H).
  split; [exact Hnot|].
  exact (proj1 (unknown_type_rejected keep_isel keep_mean (list string) unit unit
                  log_contourf log_contour log_stippling simple_repr two_steps
                  [[false; false]; [true; false]] "bogus" (StipplingBool true)
                  tt [] Hnot)).
Defined.

Example known_type_draws :
  add_any_contour_from_mask keep_isel keep_mean (list string) unit unit
    log_contourf log_contour log_stippling simple_repr two_steps
    [[false; false]; [true; false]] "both" (StipplingStr "red") tt []
  = (["add_contourf"; "add_stippling"], Ok (Some tt)).
Proof. reflexivity. Qed.

(** C4 as the specification words it does not hold: four panel points give
    a cloud of forty points, ten per point and not nine, because the point
    itself is appended again at offset zero; and a replica sits at the
    spacing divided by 2.01, nearer than half the spacing. *)
Lemma tile_cloud_counterexample :
  exists tiled tiled_labs,
    tile_cloud 3 four_panels [1; 0; -1; 0] = Ok (tiled, tiled_labs) /\
    List.length tiled = 40%nat /\
    nth_error tiled 0 = Some (0, 0)%float /\
    nth_error tiled 8 = Some (0, 0)%float /\
    nth_error tiled 4 = Some (0 + -1 * 1 / 2.01, 0 + -1 * 2 / 2.01)%float /\
    PrimFloat.ltb (-0.5) (0 + -1 * 1 / 2.01) = true.
Proof.
  eexists. eexists. split; [vm_compute; reflexivity|].
  repeat split.
Qed.

(** C4 (as amended) on four panel points in a column of three rows. *)
Lemma tile_cloud_replicas_witness :
  panel_spacing 3 four_panels = Ok (1, 2)%float /\
  exists tiled tiled_labs,
    tile_cloud 3 four_panels [1; 0; -1; 0] = Ok (tiled, tiled_labs) /\
    List.length tiled = 40%nat /\
    firstn 13 tiled_labs = [1; 0; -1; 0; 1; 1; 1; 1; 1; 1; 1; 1; 1].
Proof.
  assert (Hsp : panel_spacing 3 four_panels = Ok (1, 2)%float) by reflexivity.
  split; [exact Hsp|].
  eexists. eexists.
  split; [exact (proj1 (tile_cloud_replicas 3 four_panels [1; 0; -1; 0] 1 2 Hsp))|].
  split; reflexivity.
Defined.

(** C6 on the background patch of a six-panel diagram. *)
Lemma cluster_on_fig_patch_styles_witness :
  In background_patch
    (fst (cluster_on_fig grey_registry one_square one_square two_axes
            six_panels [1; 0; -1; 0; 1; 1] ClusterCmapNone)) /\
  exists colors reduced_coords tiled_labs x y i lab ps,
    cluster_setup grey_registry two_axes six_panels [1; 0; -1; 0; 1; 1]
      ClusterCmapNone
    = Ok (colors, reduced_coords, tiled_labs, x, y) /\
    nth_error (np_unique [1; 0; -1; 0; 1; 1]) i = Some lab /\
    label_patches one_square one_square colors reduced_coords tiled_labs x y i
      lab = Ok ps /\
    In background_patch ps /\
    (lab = 0 ->
     pp_fc background_patch = ColorName "black" /\
     pp_alpha background_patch = 0.2%float /\
     pp_ec background_patch = ColorName "none" /\
     pp_ls background_patch = "none") /\
    (lab <> 0 ->
     pp_fc background_patch = ColorName "none" /\
     py_index colors (Z.of_nat i) = Ok (pp_ec background_patch) /\
     (0 <= lab -> pp_ls background_patch = "solid") /\
     (lab < 0 -> pp_ls background_patch = "dashed")).
Proof.
  assert (Hin : In background_patch
                  (fst (cluster_on_fig grey_registry one_square one_square
                          two_axes six_panels [1; 0; -1; 0; 1; 1]
                          ClusterCmapNone)))
    by (vm_compute; right; left; reflexivity).
  split; [exact Hin|].
  exact (cluster_on_fig_patch_styles grey_registry one_square one_square
           two_axes six_panels [1; 0; -1; 0; 1; 1] ClusterCmapNone
           background_patch Hin).
Defined.

Example cluster_on_fig_styles :
  map (fun p => (pp_fc p, pp_ls p))
    (fst (cluster_on_fig grey_registry one_square one_square two_axes
            six_panels [1; 0; -1; 0; 1; 1] ClusterCmapNone))
  = [(ColorName "none", "dashed"); (ColorName "black", "none");
     (ColorName "none", "solid")].
Proof. reflexivity. Qed.

(** * Further properties on concrete inputs *)

(** Membership in a list that computes to its elements. *)
Ltac in_computed_list :=
  vm_compute; repeat (first [left; reflexivity | right]).

(** X1 on the default line styles and seven levels. *)
Lemma doubleit_length_witness :
  0 <= 7 /\
  doubleit (ThingList ["dashed"; "solid"]) 7 "solid"
  = Ok ["dashed"; "dashed"; "dashed"; "solid"; "solid"; "solid"; "solid"] /\
  Z.of_nat (List.length
              ["dashed"; "dashed"; "dashed"; "solid"; "solid"; "solid"; "solid"])
  = 7.
Proof.
  assert (H0 : 0 <= 7) by lia.
  split; [exact H0|]. split; [reflexivity|].
  exact (doubleit_length (ThingList ["dashed"; "solid"]) 7 "solid" _ H0 eq_refl).
Defined.

(** X2 on a single colour. *)
Lemma doubleit_short_list_witness :
  (List.length ["red"] < 2)%nat /\
  doubleit (ThingList ["red"]) 4 "black" = Raise IndexError.
Proof.
  assert (H : (List.length ["red"] < 2)%nat) by (simpl; lia).
  split; [exact H|].
  exact (doubleit_short_list ["red"] 4 "black" H).
Defined.

(** X3 on four colours: the last two are not used. *)
Lemma doubleit_first_two_witness :
  List.length ["c"; "d"] <> 1%nat /\ 0 <= 5 /\
  doubleit (ThingList ["a"; "b"; "c"; "d"]) 5 "x"
  = Ok ["a"; "a"; "x"; "b"; "b"].
Proof.
  assert (H : List.length ["c"; "d"] <> 1%nat) by discriminate.
  assert (H0 : 0 <= 5) by lia.
  split; [exact H|]. split; [exact H0|].
  exact (doubleit_first_two "a" "b" ["c"; "d"] 5 "x" H H0).
Defined.

(** X4 on a field without a direction. *)
Lemma create_levels_no_direction_witness :
  field_dtype anomaly_field <> dt_bool /\
  PrimFloat.ltb 0.99%float 1%float = true /\
  ~ In (const_direction None [anomaly_field]) [Some (-1); Some 0; Some 1] /\
  create_levels (const_direction None) (const_quantile (-1) 1)
    (const_ticks [-1; 0; 1]%float) [anomaly_field] LevelsNone 0.99%float
  = Raise KeyError.
Proof.
  assert (Hf : field_dtype anomaly_field <> dt_bool) by discriminate.
  assert (Hq : PrimFloat.ltb 0.99%float 1%float = true) by reflexivity.
  assert (Hd : ~ In (const_direction None [anomaly_field])
                 [Some (-1); Some 0; Some 1])
    by (intros [H|[H|[H|[]]]]; discriminate H).
  split; [exact Hf|]. split; [exact Hq|]. split; [exact Hd|].
  exact (create_levels_no_direction (const_direction None)
           (const_quantile (-1) 1) (const_ticks [-1; 0; 1]%float)
           anomaly_field [] LevelsNone 0.99%float Hf Hq Hd).
Defined.

(** X5 on a field inferred as negative-only. *)
Lemma create_levels_extend_policy_witness :
  field_dtype anomaly_field <> dt_bool /\
  PrimFloat.ltb 0.99%float 1%float = true /\
  create_levels (const_direction (Some (-1))) (const_quantile (-1) 1)
    (const_ticks []) [anomaly_field] (LevelsSeq [1; 2]%float) 0.99%float
  = Ok ([1; 2]%float, [1; 2]%float, "min", Some (-1)) /\
  ((Some (-1) = Some (-1) /\ "min" = "min")
   \/ (Some (-1) = Some 0 /\ "min" = "both")
   \/ (Some (-1) = Some 1 /\ "min" = "max")).
Proof.
  assert (Hf : field_dtype anomaly_field <> dt_bool) by discriminate.
  assert (Hq : PrimFloat.ltb 0.99%float 1%float = true) by reflexivity.
  split; [exact Hf|]. split; [exact Hq|]. split; [reflexivity|].
  exact (proj2 (create_levels_extend_policy (const_direction (Some (-1)))
                  (const_quantile (-1) 1) (const_ticks []) anomaly_field []
                  (LevelsSeq [1; 2]%float) 0.99%float _ _ _ _ Hf Hq eq_refl)).
Defined.

(** X6 on generated ticks for a positive-only field. *)
Lemma create_levels_one_sided_fill_witness :
  create_levels (const_direction (Some 1)) (const_quantile 0 3)
    (const_ticks [0; 1; 2; 3]%float) [anomaly_field] LevelsNone 0.99%float
  = Ok ([0; 1; 2; 3]%float, [0; 1; 2; 3]%float, "max", Some 1) /\
  Some 1 <> Some 0 /\
  [0; 1; 2; 3]%float = [0; 1; 2; 3]%float.
Proof.
  assert (Hd : Some 1 <> Some 0) by discriminate.
  split; [reflexivity|]. split; [exact Hd|].
  exact (create_levels_one_sided_fill (const_direction (Some 1))
           (const_quantile 0 3) (const_ticks [0; 1; 2; 3]%float)
           [anomaly_field] LevelsNone 0.99%float _ _ _ _ eq_refl Hd).
Defined.

(** X8 on a count beyond the colormap: nothing goes out of bounds. *)
Lemma make_transparent_total_witness :
  resolve_cmap grey_registry (CmapName "Greens") = Ok grey_cmap /\
  0 <= 4 + 0 /\
  exists colorlist,
    make_transparent grey_registry (CmapName "Greens") (Some 4) 0.5%float 9 (-1)
    = Ok colorlist /\
    Z.of_nat (List.length colorlist) = 4 + 0.
Proof.
  assert (Hc : resolve_cmap grey_registry (CmapName "Greens") = Ok grey_cmap)
    by reflexivity.
  assert (Hn : 0 <= 4 + 0) by lia.
  split; [exact Hc|]. split; [exact Hn|].
  exact (make_transparent_total grey_registry (CmapName "Greens") grey_cmap
           (Some 4) 0.5%float 9 (-1) Hc Hn).
Defined.

(** X10 on four levels: the grey values run from 0 to 1 whatever the alpha. *)
Lemma make_transparent_keeps_rgb_witness :
  exists cl,
    make_transparent no_registry (CmapObj grey_cmap) (Some 3) 0.5%float 1 1
    = Ok cl /\
    exists cm pts,
      resolve_cmap no_registry (CmapObj grey_cmap) = Ok cm /\
      np_linspace 0%float 1%float (3 + 0) = Ok pts /\
      map rgb_of cl = map (fun x => rgb_of (cmap_rgba cm x)) pts.
Proof.
  eexists. split; [vm_compute; reflexivity|].
  exact (make_transparent_keeps_rgb no_registry (CmapObj grey_cmap) (Some 3)
           0.5%float 1 1 _ eq_refl).
Defined.

(** X11 on the first, transparent, entry of four levels. *)
Lemma make_transparent_two_alphas_witness :
  exists cl,
    make_transparent no_registry (CmapObj grey_cmap) (Some 3) 0.5%float 1 1
    = Ok cl /\
    In (mkRGBA 0 0 0 0) cl /\
    (rgba_a (mkRGBA 0 0 0 0) = 0%float \/ rgba_a (mkRGBA 0 0 0 0) = 0.5%float).
Proof.
  eexists. split; [vm_compute; reflexivity|].
  assert (Hin : In (mkRGBA 0 0 0 0)
                  [mkRGBA 0 0 0 0; mkRGBA 0.5 0.5 0.5 0.5; mkRGBA 1 1 1 0.5])
    by (left; reflexivity).
  split; [exact Hin|].
  exact (make_transparent_two_alphas no_registry (CmapObj grey_cmap) (Some 3)
           0.5%float 1 1 _ _ eq_refl Hin).
Defined.

(** X12 on direction -1: every entry ends transparent. *)
Lemma make_transparent_zero_count_witness :
  -1 <> 0 /\
  exists cl,
    make_transparent no_registry (CmapObj grey_cmap) (Some 3) 0.5%float 0 (-1)
    = Ok cl /\
    In (mkRGBA 1 1 1 0) cl /\
    rgba_a (mkRGBA 1 1 1 0) = 0%float.
Proof.
  assert (Hd : -1 <> 0) by discriminate.
  split; [exact Hd|].
  eexists. split; [vm_compute; reflexivity|].
  assert (Hin : In (mkRGBA 1 1 1 0)
                  [mkRGBA 0 0 0 0; mkRGBA 0.5 0.5 0.5 0; mkRGBA 1 1 1 0])
    by (right; right; left; reflexivity).
  split; [exact Hin|].
  exact (make_transparent_zero_count no_registry grey_cmap 3 0.5%float (-1) _ _
           Hd eq_refl Hin).
Defined.

(** X13 on the 6 by 4 grid of the defaults. *)
Lemma to_prettier_order_injective_witness :
  0 < 4 /\ 0 <= 0 < 6 * 4 /\ 0 <= 5 < 6 * 4 /\
  (exists k l,
     to_prettier_order 0 6 4 = Returns k /\
     to_prettier_order 5 6 4 = Returns l /\
     1 <= k <= 6 * 4 /\
     (k = l -> 0 = 5)) /\
  to_prettier_order 0 6 0 = Raises ZeroDivisionError.
Proof.
  assert (Hh : 0 < 4) by lia.
  assert (Hn : 0 <= 0 < 6 * 4) by lia.
  assert (Hm : 0 <= 5 < 6 * 4) by lia.
  split; [exact Hh|]. split; [exact Hn|]. split; [exact Hm|].
  exact (to_prettier_order_injective 6 4 0 5 Hh Hn Hm).
Defined.

Example to_prettier_order_first_column :
  map (fun n => to_prettier_order n 6 4) [0; 1; 2; 3; 4]
  = [Returns 19; Returns 13; Returns 7; Returns 1; Returns 20].
Proof. reflexivity. Qed.

(** X14 on subplot number 7 of the 6 by 4 grid. *)
Lemma to_prettier_order_onto_witness :
  0 < 4 /\ 1 <= 7 <= 6 * 4 /\ 0 < 6 /\
  exists n, 0 <= n < 6 * 4 /\ to_prettier_order n 6 4 = Returns 7.
Proof.
  assert (Hh : 0 < 4) by lia.
  assert (Hk : 1 <= 7 <= 6 * 4) by lia.
  assert (Hw : 0 < 6) by lia.
  split; [exact Hh|]. split; [exact Hk|]. split; [exact Hw|].
  exact (to_prettier_order_onto 6 4 7 Hh Hk Hw).
Defined.

Example honeycomb_two_rows :
  honeycomb_cells 2 2
  = [(0, 0, (0, 2)); (1, 0, (1, 3)); (0, 1, (2, 4)); (1, 1, (3, 5))].
Proof. reflexivity. Qed.

(** X16 on two neighbours of the odd row of a 2 by 2 honeycomb. *)
Lemma honeycomb_cells_disjoint_witness :
  In (1, 0, (1, 3)) (honeycomb_cells 2 2) /\
  In (1, 1, (3, 5)) (honeycomb_cells 2 2) /\
  0 <> 1 /\
  (3 <= 3 \/ 5 <= 1).
Proof.
  assert (H : In (1, 0, (1, 3)) (honeycomb_cells 2 2)) by in_computed_list.
  assert (H' : In (1, 1, (3, 5)) (honeycomb_cells 2 2)) by in_computed_list.
  assert (Hne : 0 <> 1) by discriminate.
  split; [exact H|]. split; [exact H'|]. split; [exact Hne|].
  exact (honeycomb_cells_disjoint 2 2 1 0 1 1 3 3 5 H H' Hne).
Defined.

(** X17 on the default region with three points per edge. *)
Lemma make_boundary_path_corners_witness :
  2 <= 3 /\
  exists path,
    make_boundary_path (-60) 70 20 80 3 = Ok path /\
    List.length path = (4 * Z.to_nat 3)%nat /\
    nth_error path (Z.to_nat 3 - 1) = Some (70, 80)%float /\
    nth_error path (2 * Z.to_nat 3 - 1) = Some (70, 20)%float /\
    nth_error path (3 * Z.to_nat 3 - 1) = Some (-60, 20)%float /\
    nth_error path (4 * Z.to_nat 3 - 1) = Some (-60, 80)%float.
Proof.
  assert (Hn : 2 <= 3) by lia.
  split; [exact Hn|].
  exact (proj1 (make_boundary_path_corners (-60) 70 20 80 3 Hn)).
Defined.

Example make_boundary_path_default_region :
  make_boundary_path (-60) 70 20 80 3
  = Ok [(-60, 80); (5, 80); (70, 80); (70, 80); (70, 50); (70, 20);
        (70, 20); (5, 20); (-60, 20); (-60, 20); (-60, 50); (-60, 80)]%float.
Proof. reflexivity. Qed.

(** X18 on the midpoint of the northern edge. *)
Lemma make_boundary_path_on_sides_witness :
  exists path,
    make_boundary_path (-60) 70 20 80 3 = Ok path /\
    In (5, 80)%float path /\
    (snd (5, 80)%float = 80%float \/ fst (5, 80)%float = 70%float
     \/ snd (5, 80)%float = 20%float \/ fst (5, 80)%float = (-60)%float).
Proof.
  eexists. split; [vm_compute; reflexivity|].
  assert (Hin : In (5, 80)%float
                  [(-60, 80); (5, 80); (70, 80); (70, 80); (70, 50); (70, 20);
                   (70, 20); (5, 20); (-60, 20); (-60, 20); (-60, 50);
                   (-60, 80)]%float)
    by (right; left; reflexivity).
  split; [exact Hin|].
  exact (make_boundary_path_on_sides (-60) 70 20 80 3 _ (5, 80)%float eq_refl
           Hin).
Defined.

(** X20 on five explicit levels around zero: four levels are drawn, five
    styles are handed over. *)
Lemma add_contour_symmetric_styles_witness :
  setup_lon_lat [geo_item] None None = Returns ([0; 1], [10; 20])%float /\
  create_levels (const_direction (Some 0)) (const_quantile (-2) 2)
    (const_ticks []) (map item_field [geo_item]) (LevelsSeq five_levels)
    0.99%float
  = Ok (five_levels, [-2; -1; 1; 2]%float, "both", Some 0) /\
  add_contour_setup (const_direction (Some 0)) (const_quantile (-2) 2)
    (const_ticks []) [geo_item] None None (LevelsSeq five_levels) ThingOther
    ThingOther 0.99%float false
  = Returns
      ([0; 1]%float, [10; 20]%float, [-2; -1; 1; 2]%float,
       ThingList ["black"; "black"; "black"; "black"; "black"],
       ThingList ["dashed"; "dashed"; "solid"; "solid"; "solid"]).
Proof.
  split; [reflexivity|]. split; [reflexivity|].
  exact (proj1 (add_contour_symmetric_styles (const_direction (Some 0))
                  (const_quantile (-2) 2) (const_ticks []) [geo_item] None None
                  (LevelsSeq five_levels) 0.99%float _ _ _ _ _ eq_refl eq_refl)).
Defined.

Example add_contour_without_coordinates :
  add_contour_setup (const_direction (Some 0)) (const_quantile (-2) 2)
    (const_ticks []) [bare_item] (Some [0; 1]%float) None
    (LevelsSeq five_levels) ThingOther ThingOther 0.99%float false
  = Raises AttributeError.
Proof. reflexivity. Qed.

(** X21 on five symmetric levels: four fill levels, five colours. *)
Lemma setup_contourf_palette_size_witness :
  PrimFloat.ltb 0.99%float 1%float = true /\
  exists colors,
    setup_contourf_palette (const_direction (Some 0)) (const_quantile (-2) 2)
      (const_ticks []) no_registry [anomaly_field] (LevelsSeq five_levels)
      (CmapObj grey_cmap) (TranspBool true) 0.99%float
    = Ok ([-2; -1; 1; 2]%float, "both", PaletteListed colors) /\
    List.length colors
    = (List.length [-2; -1; 1; 2]%float
       + (if String.eqb "both" "both" then 1 else 0))%nat.
Proof.
  assert (Hq : PrimFloat.ltb 0.99%float 1%float = true) by reflexivity.
  split; [exact Hq|].
  eexists. split; [vm_compute; reflexivity|].
  exact (setup_contourf_palette_size (const_direction (Some 0))
           (const_quantile (-2) 2) (const_ticks []) no_registry [anomaly_field]
           (LevelsSeq five_levels) (CmapObj grey_cmap) (TranspBool true)
           0.99%float _ _ _ Hq eq_refl).
Defined.

(** X22 on six panels with three labels and the default palette. *)
Lemma cluster_on_fig_colormap_completes_witness :
  (forall l, ClusterCmapNone <> ClusterCmapList l) /\
  exists colors rc tl x y,
    cluster_setup grey_registry two_axes six_panels [1; 0; -1; 0; 1; 1]
      ClusterCmapNone = Ok (colors, rc, tl, x, y) /\
    List.length colors = List.length (np_unique [1; 0; -1; 0; 1; 1]) /\
    snd (cluster_on_fig grey_registry one_square one_square two_axes
           six_panels [1; 0; -1; 0; 1; 1] ClusterCmapNone) = Ok tt.
Proof.
  assert (Hnot : forall l, ClusterCmapNone <> ClusterCmapList l)
    by (intros l; discriminate).
  split; [exact Hnot|].
  destruct (cluster_setup grey_registry two_axes six_panels [1; 0; -1; 0; 1; 1]
              ClusterCmapNone) as [[[[[colors rc] tl] x] y]|e] eqn:H;
    [|vm_compute in H; discriminate H].
  exists colors, rc, tl, x, y. split; [reflexivity|].
  exact (cluster_on_fig_colormap_completes grey_registry one_square one_square
           two_axes six_panels [1; 0; -1; 0; 1; 1] ClusterCmapNone colors rc tl
           x y Hnot H).
Defined.

(** X23 on one colour for three labels: label 1 has rank 2. *)
Lemma cluster_on_fig_short_color_list_witness :
  nth_error (np_unique [1; 0; -1; 0; 1; 1]) 2 = Some 1 /\
  1 <> 0 /\
  (List.length [ColorName "red"] <= 2)%nat /\
  snd (cluster_on_fig no_registry one_square one_square two_axes six_panels
         [1; 0; -1; 0; 1; 1] (ClusterCmapList [ColorName "red"]))
  = Raise IndexError.
Proof.
  assert (Hi : nth_error (np_unique [1; 0; -1; 0; 1; 1]) 2 = Some 1)
    by reflexivity.
  assert (Hlab : 1 <> 0) by discriminate.
  assert (Hlen : (List.length [ColorName "red"] <= 2)%nat) by (simpl; lia).
  split; [exact Hi|]. split; [exact Hlab|]. split; [exact Hlen|].
  destruct (cluster_setup no_registry two_axes six_panels [1; 0; -1; 0; 1; 1]
              (ClusterCmapList [ColorName "red"]))
    as [[[[[colors rc] tl] x] y]|e] eqn:H;
    [|vm_compute in H; discriminate H].
  exact (proj2 (cluster_on_fig_short_color_list no_registry one_square
                  one_square two_axes six_panels [1; 0; -1; 0; 1; 1]
                  [ColorName "red"] colors rc tl x y 2 1 H Hi Hlab Hlen)).
Defined.

(** X24 on two layout points. *)
Lemma cluster_on_fig_too_few_points_witness :
  ((List.length [(0, 0); (0, 1)]%float < 3)%nat
   \/ 0 <= cp_nrow two_axes
      /\ Z.of_nat (List.length [(0, 0); (0, 1)]%float) <= cp_nrow two_axes) /\
  panel_spacing (cp_nrow two_axes) [(0, 0); (0, 1)]%float = Raise IndexError /\
  exists e,
    cluster_on_fig grey_registry one_square one_square two_axes
      [(0, 0); (0, 1)]%float [1; 0] ClusterCmapNone = ([], Raise e).
Proof.
  assert (H : (List.length [(0, 0); (0, 1)]%float < 3)%nat
              \/ 0 <= cp_nrow two_axes
                 /\ Z.of_nat (List.length [(0, 0); (0, 1)]%float)
                    <= cp_nrow two_axes)
    by (left; simpl; lia).
  split; [exact H|].
  exact (cluster_on_fig_too_few_points grey_registry one_square one_square
           two_axes [(0, 0); (0, 1)]%float [1; 0] ClusterCmapNone H).
Defined.

(** X25 on the second group of a mask over two time steps. *)
Lemma group_with_members_selected_witness :
  nth_error [[false; false]; [true; false]] 1 = Some [true; false] /\
  1 <= np_sum [true; false] /\
  forall to_test,
    stippling_to_test keep_isel two_steps [[false; false]; [true; false]]
    = Ok to_test ->
    List.length to_test = List.length [[false; false]; [true; false]] /\
    exists sel,
      keep_isel two_steps "time" [true; false] = Ok sel /\
      nth_error to_test 1 = Some sel.
Proof.
  assert (Hg : nth_error [[false; false]; [true; false]] 1 = Some [true; false])
    by reflexivity.
  assert (Hs : 1 <= np_sum [true; false]) by (vm_compute; discriminate).
  split; [exact Hg|]. split; [exact Hs|].
  exact (proj1 (group_with_members_selected keep_isel keep_mean two_steps
                  [[false; false]; [true; false]] 1 [true; false] Hg Hs)).
Defined.

Example p_to_tex_negative_intercept :
  p_to_tex (fun x => if PrimFloat.ltb x 0%float then "-2" else "3")
    3%float (-2)%float false
  = "$y=3\cdot x + -2$".
Proof. reflexivity. Qed.
